(** * OpenSubdivShaderOverride: a shallow embedding of the Maya viewer override

    The development follows examples/mayaViewer/OpenSubdivShaderOverride.cpp:
    the attribute-changed callback and the bookkeeping of callback ids, the
    per-frame [draw] loop, the position vertex-buffer generator and the plugin
    entry points [initializePlugin] / [uninitializePlugin].

    Calls into Maya and into the OpenSubdiv library are modelled by their
    observable effect on an explicit world (callback table, heap of compute
    controllers, plugin registry) and by a log of the calls made. *)

From Stdlib Require Import ZArith Lia.
From stdpp Require Import base option list gmap strings.

Local Open Scope string_scope.
Local Open Scope list_scope.
Local Open Scope nat_scope.

(** ** The part of the Maya API the file relies on *)

Module Maya.

(** [MStatus::MStatusCode]. *)
Inductive MStatus : Type :=
  | kSuccess
  | kFailure
  | kInsufficientMemory
  | kInvalidParameter
  | kLicenseFailure
  | kUnknownParameter
  | kNotImplemented
  | kNotFound
  | kEndOfFile.

(** [MStatus::operator bool]: true exactly for [kSuccess]. *)
Definition status_ok (s : MStatus) : bool :=
  match s with
  | kSuccess => true
  | _ => false
  end.

(** [MNodeMessage::AttributeMessage] is a bit mask; the values are those of
    Maya's MNodeMessage.h. *)
Definition AttributeMessage := Z.

Definition kConnectionMade : AttributeMessage := 1%Z.
Definition kConnectionBroken : AttributeMessage := 2%Z.
Definition kAttributeEval : AttributeMessage := 4%Z.
Definition kAttributeSet : AttributeMessage := 8%Z.
Definition kAttributeLocked : AttributeMessage := 16%Z.
Definition kAttributeUnlocked : AttributeMessage := 32%Z.
Definition kAttributeAdded : AttributeMessage := 64%Z.
Definition kAttributeRemoved : AttributeMessage := 128%Z.
Definition kOtherPlugSet : AttributeMessage := 16384%Z.

(** The C test [if (msg & bit)]. *)
Definition has_bit (msg bit : AttributeMessage) : bool :=
  negb (Z.land msg bit =? 0)%Z.

(** A dependency node: its handle and the attribute objects it owns, by
    name.  [attribute] is [MFnDependencyNode::attribute(name)], which yields
    the null object when the node has no attribute of that name. *)
Record DepNode : Type := mkDepNode {
  node_handle : nat;
  node_attrs : list (string * nat)
}.

Fixpoint assoc_attr (name : string) (attrs : list (string * nat)) : option nat :=
  match attrs with
  | [] => None
  | (k, a) :: rest => if String.eqb k name then Some a else assoc_attr name rest
  end.

Definition attribute (n : DepNode) (name : string) : option nat :=
  assoc_attr name (node_attrs n).

(** A plug delivered to a callback: the node it lives on and its attribute
    object. *)
Record MPlug : Type := mkPlug {
  plug_node : nat;
  plug_attribute : nat
}.

(** [MPlug::operator==(const MObject &)]: the plug's attribute is the given
    attribute object. *)
Definition plug_is (p : MPlug) (attr : option nat) : bool :=
  match attr with
  | Some a => Nat.eqb (plug_attribute p) a
  | None => false
  end.

(** A DAG path: the node at its end and, for a transform, the shape directly
    below it.  [extendToShape] moves to that shape when there is one. *)
Record MDagPath : Type := mkDagPath {
  node : DepNode;
  shape_below : option DepNode
}.

Definition extendToShape (p : MDagPath) : MDagPath :=
  match shape_below p with
  | Some s => {| node := s; shape_below := None |}
  | None => p
  end.

(** One entry of Maya's table of live callbacks: the node observed and the
    client data handed back on each notification. *)
Record Subscription : Type := mkSubscription {
  sub_node : nat;
  sub_clientData : nat
}.

(** [MHWRender::MGeometry::Semantic] and [DataType], as far as used. *)
Inductive Semantic : Type := kPosition | kTangent.
Inductive DataType : Type := kFloat.

Record MVertexBufferDescriptor : Type := mkDescriptor {
  vbd_name : string;
  vbd_semantic : Semantic;
  vbd_semanticName : string;
  vbd_dataType : DataType;
  vbd_dimension : nat
}.

Definition setSemanticName (s : string) (d : MVertexBufferDescriptor)
  : MVertexBufferDescriptor :=
  {| vbd_name := vbd_name d; vbd_semantic := vbd_semantic d;
     vbd_semanticName := s; vbd_dataType := vbd_dataType d;
     vbd_dimension := vbd_dimension d |}.

End Maya.

Import Maya.

(** ** OsdMeshData (osdMeshData.h) *)

Module OsdMeshData.

(** Modelled from the spec: the class OsdMeshData is declared in
    osdMeshData.h, which is not among the sources.  The spec gives the mesh
    binding a stable handle (path) into the scene and the dirty flags
    {topologyDirty, attributesDirty, buffersStaleForFrame}, of which the
    change tracker sets topologyDirty. *)
Record t : Type := mk {
  getDagPath : MDagPath;
  topologyDirty : bool;
  attributesDirty : bool;
  buffersStaleForFrame : bool
}.

(** Modelled from the spec: [setMeshTopoDirty] raises topologyDirty and
    touches nothing else. *)
Definition setMeshTopoDirty (d : t) : t :=
  {| getDagPath := getDagPath d;
     topologyDirty := true;
     attributesDirty := attributesDirty d;
     buffersStaleForFrame := buffersStaleForFrame d |}.

(** Modelled from the spec: the constructor [OsdMeshData(dagPath)] keeps the
    path; topology is built lazily on the first draw request, so the binding
    starts out dirty. *)
Definition create (p : MDagPath) : t :=
  {| getDagPath := p; topologyDirty := true; attributesDirty := true;
     buffersStaleForFrame := true |}.

End OsdMeshData.

(** ** The world the override runs in *)

(** Maya's table of live callbacks, the heap of OsdMeshData objects reachable
    through client-data pointers, the next callback id Maya will issue and
    what was written to [cerr]. *)
Record World : Type := mkWorld {
  callbacks : gmap nat Subscription;
  nextCallbackId : nat;
  meshStore : gmap nat OsdMeshData.t;
  nextMeshData : nat;
  cerr : list string
}.

(** ** OpenSubdivShaderOverride: change tracking *)

Module ShaderOverride.

(** The fields of the class: the shader pointer (NULL until [updateDG] saves
    it), the ids of the callbacks it added and the geometry requirements it
    declared. *)
Record t : Type := mk {
  _shader : option nat;
  _callbackIds : list nat;
  requirements : list MVertexBufferDescriptor
}.

(** The constructor: [_shader(NULL)], no callback ids. *)
Definition creator (obj : nat) : t :=
  {| _shader := None; _callbackIds := []; requirements := [] |}.

(** [attrChangedCB]: state passing on the OsdMeshData the client-data pointer
    refers to. *)
Definition attrChangedCB (msg : AttributeMessage) (plug otherPlug : MPlug)
    (meshData : OsdMeshData.t) : OsdMeshData.t :=
  if has_bit msg kAttributeEval then
    let depNodeFn := node (OsdMeshData.getDagPath meshData) in
    if plug_is plug (attribute depNodeFn "outMesh") then
      OsdMeshData.setMeshTopoDirty meshData
    else meshData
  else meshData.

(** [MNodeMessage::addAttributeChangedCallback]: Maya either accepts the
    registration, enters it in its table under a fresh id and reports
    success, or refuses it and reports failure.  Which of the two happens is
    the environment's choice [accept]. *)
Definition addAttributeChangedCallback (accept : bool) (shapeNode : DepNode)
    (clientData : nat) (w : World) : nat * MStatus * World :=
  if accept then
    let id := nextCallbackId w in
    (id, kSuccess,
     {| callbacks := <[id := mkSubscription (node_handle shapeNode) clientData]>
                       (callbacks w);
        nextCallbackId := S id;
        meshStore := meshStore w;
        nextMeshData := nextMeshData w;
        cerr := cerr w |})
  else (0, kFailure, w).

Definition print_cerr (s : string) (w : World) : World :=
  {| callbacks := callbacks w; nextCallbackId := nextCallbackId w;
     meshStore := meshStore w; nextMeshData := nextMeshData w;
     cerr := cerr w ++ [s] |}.

Definition append_id (id : nat) (ov : t) : t :=
  {| _shader := _shader ov; _callbackIds := _callbackIds ov ++ [id];
     requirements := requirements ov |}.

(** [addTopologyChangedCallbacks]. *)
Definition addTopologyChangedCallbacks (accept : bool) (dagPath : MDagPath)
    (data : nat) (ov : t) (w : World) : t * World :=
  let meshDagPath := extendToShape dagPath in
  let shapeNode := node meshDagPath in
  let '(id, status, w1) := addAttributeChangedCallback accept shapeNode data w in
  if status_ok status then (append_id id ov, w1)
  else (ov, print_cerr "MNodeMessage.addCallback failed" w1).

(** [MMessage::removeCallbacks]: every listed id leaves Maya's table. *)
Definition removeCallbacks (ids : list nat) (w : World) : World :=
  {| callbacks := foldr delete (callbacks w) ids;
     nextCallbackId := nextCallbackId w;
     meshStore := meshStore w;
     nextMeshData := nextMeshData w;
     cerr := cerr w |}.

(** The destructor. *)
Definition destructor (ov : t) (w : World) : World :=
  removeCallbacks (_callbackIds ov) w.

(** How Maya delivers a notification for callback [id]: only a callback
    still in the table runs, on the OsdMeshData its client data points to. *)
Definition deliver (id : nat) (msg : AttributeMessage) (plug otherPlug : MPlug)
    (w : World) : World :=
  match callbacks w !! id with
  | Some sub =>
      {| callbacks := callbacks w; nextCallbackId := nextCallbackId w;
         meshStore := alter (attrChangedCB msg plug otherPlug)
                            (sub_clientData sub) (meshStore w);
         nextMeshData := nextMeshData w;
         cerr := cerr w |}
  | None => w
  end.

Definition addGeometryRequirement (d : MVertexBufferDescriptor) (ov : t) : t :=
  {| _shader := _shader ov; _callbackIds := _callbackIds ov;
     requirements := requirements ov ++ [d] |}.

(** [new OsdMeshData(dagPath)]. *)
Definition new_OsdMeshData (p : MDagPath) (w : World) : nat * World :=
  let ptr := nextMeshData w in
  (ptr,
   {| callbacks := callbacks w; nextCallbackId := nextCallbackId w;
      meshStore := <[ptr := OsdMeshData.create p]> (meshStore w);
      nextMeshData := S ptr;
      cerr := cerr w |}).

(** One call of [initialize]: the path of the init context, the custom data
    found in the init feedback (NULL or a pointer) and Maya's answer to the
    callback registration. *)
Record InitCall : Type := mkInitCall {
  ic_dagPath : MDagPath;
  ic_customData : option nat;
  ic_accept : bool
}.

(** [initialize]: returns the name, the custom data left in the feedback,
    the override and the world. *)
Definition initialize (c : InitCall) (ov : t) (w : World)
  : string * nat * t * World :=
  let ov1 := addGeometryRequirement (mkDescriptor EmptyString kPosition EmptyString kFloat 3) ov in
  let ov2 := addGeometryRequirement
               (setSemanticName "osdPosition"
                  (mkDescriptor "osdPosition" kTangent EmptyString kFloat 3)) ov1 in
  let '(data, w1) :=
    match ic_customData c with
    | None => new_OsdMeshData (ic_dagPath c) w
    | Some p => (p, w)
    end in
  let '(ov3, w2) := addTopologyChangedCallbacks (ic_accept c) (ic_dagPath c) data ov2 w1 in
  ("OpenSubdivShaderOverride", data, ov3, w2).

(** The life of one override up to its teardown: [initialize] called any
    number of times. *)
Fixpoint lifetime (calls : list InitCall) (ov : t) (w : World) : t * World :=
  match calls with
  | [] => (ov, w)
  | c :: rest =>
      let '(_, _, ov1, w1) := initialize c ov w in
      lifetime rest ov1 w1
  end.

(** [updateDG]: [object] is the null object or a node whose hardware-shader
    pointer ([getHwShaderNodePtr]) may itself be null.  The call of
    [updateAttributes] on a shader that is there acts on the shader only. *)
Definition updateDG (object : option (option nat)) (ov : t) : t :=
  match object with
  | None => ov
  | Some hw =>
      {| _shader := hw; _callbackIds := _callbackIds ov;
         requirements := requirements ov |}
  end.

End ShaderOverride.

(** ** OpenSubdivShaderOverride: the per-frame draw *)

Module Draw.

Record MVertexBuffer : Type := mkVertexBuffer {
  vb_handle : nat;
  descriptor : MVertexBufferDescriptor
}.

(** A render item as [draw] reads it: its custom data (NULL or a pointer to
    an OsdMeshData) and the vertex buffers of its geometry. *)
Record MRenderItem : Type := mkRenderItem {
  customData : option nat;
  geometry : list MVertexBuffer
}.

Record MBlendStateDesc : Type := mkBlendDesc {
  independentBlendEnable : bool;
  targetBlends : list bool
}.

(** [MHWRender::MBlendState::kMaxTargets]. *)
Definition kMaxTargets : nat := 8.

(** What the state manager of a draw context answers: the state objects it
    hands out (possibly NULL) and the default blend description. *)
Record MDrawContext : Type := mkContext {
  acquireDepthStencilState : option nat;
  acquireBlendState : option nat;
  defaultBlendDesc : MBlendStateDesc
}.

(** The function-local statics of [draw]. *)
Record Statics : Type := mkStatics {
  depthState : option nat;
  blendState : option nat
}.

(** The calls [draw] makes on its collaborators.  The four calls on a render
    item's mesh data are the stages of the frame: topology check, plan check,
    refine and draw. *)
Inductive Call : Type :=
  | AcquireDepthStencilState
  | AcquireBlendState (desc : MBlendStateDesc)
  | SetDepthStencilState (s : option nat)
  | SetBlendState (s : option nat)
  | RebuildHbrMeshIfNeeded (data : nat) (shader : option nat)
  | Prepare (data : nat)
  | UpdateGeometry (data : nat) (position : option MVertexBuffer)
  | ShaderDraw (shader : nat) (data : nat).

(** How a call of [draw] ends: it returns its boolean, or it reaches
    [_shader->draw] with [_shader] still NULL. *)
Inductive Outcome : Type :=
  | Returned (b : bool)
  | NullShader.

(** [desc.targetBlends[i].blendEnable = false] for [i < ntargets]. *)
Fixpoint disable_blends (ntargets : nat) (i : nat) (targets : list bool) : list bool :=
  match ntargets with
  | 0 => targets
  | S n => disable_blends n (S i) (<[i := false]> targets)
  end.

(** The first block of [draw]: acquire the two state objects once, then set
    them. *)
Definition setup_state (context : MDrawContext) (st : Statics) : Statics * list Call :=
  let '(ds, l1) :=
    match depthState st with
    | None => (acquireDepthStencilState context, [AcquireDepthStencilState])
    | Some s => (Some s, [])
    end in
  let '(bs, l2) :=
    match blendState st with
    | None =>
        let desc := defaultBlendDesc context in
        let ntargets := if independentBlendEnable desc then kMaxTargets else 1 in
        let desc' := {| independentBlendEnable := independentBlendEnable desc;
                        targetBlends := disable_blends ntargets 0 (targetBlends desc) |} in
        (acquireBlendState context, [AcquireBlendState desc'])
    | Some s => (Some s, [])
    end in
  ({| depthState := ds; blendState := bs |},
   l1 ++ l2 ++ [SetDepthStencilState ds; SetBlendState bs]).

(** The inner loop over the vertex buffers: the last buffer named
    "osdPosition" wins. *)
Definition find_position (buffers : list MVertexBuffer) : option MVertexBuffer :=
  fold_left
    (fun position vb =>
       if String.eqb (vbd_name (descriptor vb)) "osdPosition" then Some vb
       else position)
    buffers None.

(** The loop over the render items. *)
Fixpoint draw_items (shader : option nat) (items : list MRenderItem)
  : Outcome * list Call :=
  match items with
  | [] => (Returned true, [])
  | renderItem :: rest =>
      match customData renderItem with
      | None => (Returned false, [])
      | Some data =>
          let position := find_position (geometry renderItem) in
          let refined :=
            [RebuildHbrMeshIfNeeded data shader; Prepare data;
             UpdateGeometry data position] in
          match shader with
          | None => (NullShader, refined)
          | Some sh =>
              let '(r, log) := draw_items shader rest in
              (r, refined ++ ShaderDraw sh data :: log)
          end
      end
  end.

(** [OpenSubdivShaderOverride::draw].  The method is const: the override is
    read, only the statics and the collaborators change. *)
Definition draw (ov : ShaderOverride.t) (context : MDrawContext)
    (renderItemList : list MRenderItem) (st : Statics)
  : Outcome * Statics * list Call :=
  let '(st', l0) := setup_state context st in
  let '(r, l) := draw_items (ShaderOverride._shader ov) renderItemList in
  (r, st', l0 ++ l).

(** The calls of a log that belong to the frame's stages. *)
Definition is_stage (c : Call) : bool :=
  match c with
  | RebuildHbrMeshIfNeeded _ _ | Prepare _ | UpdateGeometry _ _ | ShaderDraw _ _ => true
  | _ => false
  end.

Definition stage_calls (log : list Call) : list Call := filter is_stage log.

(** The stages of one render item, in program order. *)
Definition item_stages (sh : nat) (it : MRenderItem) : list Call :=
  match customData it with
  | None => []
  | Some data =>
      [RebuildHbrMeshIfNeeded data (Some sh); Prepare data;
       UpdateGeometry data (find_position (geometry it)); ShaderDraw sh data]
  end.

Definition has_data (it : MRenderItem) : bool :=
  match customData it with
  | Some _ => true
  | None => false
  end.

(** The render items in front of the first one without custom data. *)
Fixpoint ready_prefix (items : list MRenderItem) : list MRenderItem :=
  match items with
  | [] => []
  | it :: rest => if has_data it then it :: ready_prefix rest else []
  end.

(** The stage calls go into code outside this file, which may raise an
    exception.  [draw] has no try, no catch and no test of a result around
    them: an exception leaves [draw] at the call that raised it. *)
Inductive Completion : Type :=
  | Completed (o : Outcome)
  | Propagated (c : Call).

(** The calls made up to and including the first stage call that raises,
    and that call. *)
Fixpoint until_raise (raises : Call -> bool) (log : list Call)
  : list Call * option Call :=
  match log with
  | [] => ([], None)
  | c :: rest =>
      if is_stage c && raises c then ([c], Some c)
      else
        let '(made, raised) := until_raise raises rest in
        (c :: made, raised)
  end.

(** [draw] when the stage calls told by [raises] raise. *)
Definition draw_raising (raises : Call -> bool) (ov : ShaderOverride.t)
    (context : MDrawContext) (renderItemList : list MRenderItem) (st : Statics)
  : Completion * Statics * list Call :=
  let '(r, st', log) := draw ov context renderItemList st in
  match until_raise raises log with
  | (made, Some c) => (Propagated c, st', made)
  | (made, None) => (Completed r, st', made)
  end.

End Draw.

(** ** OsdBufferGenerator *)

Module OsdBufferGenerator.

Section Generator.

(** The carrier of single-precision floats; the generator only copies
    them. *)
Context {float : Type}.

Record MFloatPoint : Type := mkPoint {
  x : float;
  y : float;
  z : float;
  w : float
}.

(** The mesh function set, as far as the generator reads it: the points of
    the mesh, one per vertex, so that [numVertices] is their number. *)
Record MFnMesh : Type := mkMesh {
  getPoints : list MFloatPoint
}.

Definition numVertices (m : MFnMesh) : nat := length (getPoints m).

(** Buffer memory is a list of cells; a cell is [None] until it has been
    written. *)

(** [MVertexBuffer::acquire(size)]: room for [size] vertices of the
    buffer's descriptor. *)
Definition acquire (d : MVertexBufferDescriptor) (size : nat)
  : list (option float) :=
  replicate (size * vbd_dimension d) None.

(** [*dst++ = v]: a write outside the acquired memory has no defined
    result. *)
Definition store (dst : nat) (v : float) (buffer : list (option float))
  : option (list (option float)) :=
  if decide (dst < length buffer) then Some (<[dst := Some v]> buffer) else None.

(** The copy loop, [count] iterations from index [i] and write position
    [dst]; [points[i]] outside the array has no defined result. *)
Fixpoint copy_points (points : list MFloatPoint) (count i dst : nat)
    (buffer : list (option float)) : option (nat * list (option float)) :=
  match count with
  | 0 => Some (dst, buffer)
  | S count' =>
      p ← points !! i;
      b1 ← store dst (x p) buffer;
      b2 ← store (dst + 1) (y p) b1;
      b3 ← store (dst + 2) (z p) b2;
      copy_points points count' (S i) (dst + 3) b3
  end.

(** The calls made on the vertex buffer. *)
Inductive BufferCall : Type :=
  | Acquire (size : nat)
  | Commit (buffer : list (option float)).

(** [createVertexStream]: the calls on [vertexBuffer], ending with the
    commit of the filled memory. *)
Definition createVertexStream (meshFn : MFnMesh) (vertexBuffer : MVertexBufferDescriptor)
  : option (list BufferCall) :=
  let nVertices := numVertices meshFn in
  let points := getPoints meshFn in
  let buffer := acquire vertexBuffer nVertices in
  '(_, filled) ← copy_points points nVertices 0 0 buffer;
  Some [Acquire nVertices; Commit filled].

End Generator.

Arguments MFloatPoint : clear implicits.
Arguments MFnMesh : clear implicits.
Arguments BufferCall : clear implicits.

(** What [MFnMesh::getVertices] yields: the number of vertices of each face
    and the vertex ids of the faces, one after the other; both are arrays of
    C ints. *)
Record MeshVertices : Type := mkMeshVertices {
  vertexCount : list Z;
  vertexList : list Z
}.

(** [MComponentDataIndexing::MComponentType]. *)
Inductive MComponentType : Type := kFaceVertex.

(** The indexing handed to [getSourceIndexing]: its array of unsigned
    indices and its component type. *)
Record MComponentDataIndexing : Type := mkIndexing {
  indices : list Z;
  componentType : MComponentType
}.

(** The cast [(unsigned int) v] of a C int. *)
Definition to_unsigned (v : Z) : Z := (v mod 2 ^ 32)%Z.

(** The loop of [getSourceIndexing]: [count] iterations from index [i],
    each appending one converted vertex id; [vertexList[i]] outside the
    array has no defined result. *)
Fixpoint append_indices (vertexList : list Z) (count i : nat) (vertices : list Z)
  : option (list Z) :=
  match count with
  | 0 => Some vertices
  | S count' =>
      v ← vertexList !! i;
      append_indices vertexList count' (S i) (vertices ++ [to_unsigned v])
  end.

(** [getSourceIndexing]: the result and the indexing it leaves. *)
Definition getSourceIndexing (mesh : MeshVertices)
    (sourceIndexing : MComponentDataIndexing)
  : option (bool * MComponentDataIndexing) :=
  let vertexList := vertexList mesh in
  vertices ← append_indices vertexList (length vertexList) 0 (indices sourceIndexing);
  Some (true, {| indices := vertices; componentType := kFaceVertex |}).

(** [getSourceStreams]. *)
Definition getSourceStreams (names : list string) : bool * list string :=
  (false, names).

End OsdBufferGenerator.

(** ** Plugin registration *)

Module Plugin.

(** The preprocessor configuration of a build. *)
Record Build : Type := mkBuild {
  is_apple : bool;
  has_openmp : bool;
  has_cuda : bool;
  has_opencl : bool
}.

(** The compute controllers the file knows. *)
Inductive Controller : Type :=
  | OsdCpuComputeController
  | OsdOmpComputeController
  | OsdCudaComputeController
  | OsdCLComputeController.

#[global] Instance Controller_eq_dec : EqDecision Controller.
Proof. solve_decision. Defined.

(** What the outside answers during [initializePlugin]: whether [initCL]
    (common/clInit.h) succeeds and the status of each registration. *)
Record Env : Type := mkEnv {
  initCL_ok : bool;
  registerNode_status : MStatus;
  registerVertexBufferGenerator_status : MStatus;
  registerShaderOverrideCreator_status : MStatus
}.

(** What is registered with Maya: node types, vertex-buffer generators and
    shader-override creators, each by the name it was registered under. *)
Record Registry : Type := mkRegistry {
  nodes : list string;
  vertexBufferGenerators : list string;
  shaderOverrideCreators : list string
}.

(** The calls on the outside, in the order they are made. *)
Inductive Call : Type :=
  | SwatchInitialize
  | GlewInit
  | CudaInit
  | InitCL (ok : bool)
  | New (k : Controller) (p : nat)
  | Delete (k : Controller) (p : nat)
  | DeleteDangling (k : Controller) (p : nat)
  | DisplayError (msg : string)
  | Perror (msg : string)
  | RegisterNode (name : string) (st : MStatus)
  | RegisterVertexBufferGenerator (name : string) (st : MStatus)
  | RegisterShaderOverrideCreator (name : string) (st : MStatus)
  | DeregisterNode (name : string)
  | DeregisterVertexBufferGenerator (name : string)
  | DeregisterShaderOverrideCreator (name : string).

(** The file-scope globals, the heap of controller objects, Maya's
    registry and the log of calls. *)
Record State : Type := mkState {
  g_cpuComputeController : option nat;
  g_ompComputeController : option nat;
  g_cudaComputeController : option nat;
  g_clComputeController : option nat;
  g_clContext : option nat;
  g_clQueue : option nat;
  heap : gmap nat Controller;
  next_ptr : nat;
  registry : Registry;
  log : list Call
}.

(** Process start: the globals are zero, nothing is allocated or
    registered. *)
Definition initial : State :=
  mkState None None None None None None ∅ 1 (mkRegistry [] [] []) [].

(** A computation either goes on with a value or leaves the function with a
    status. *)
Inductive Flow (A : Type) : Type :=
  | Next (a : A)
  | Exit (st : MStatus).

Arguments Next {A} a.
Arguments Exit {A} st.

Definition M (A : Type) : Type := State -> Flow A * State.

Definition ret {A} (a : A) : M A := fun s => (Next a, s).

Definition bind {A B} (c : M A) (k : A -> M B) : M B :=
  fun s =>
    match c s with
    | (Next a, s') => k a s'
    | (Exit st, s') => (Exit st, s')
    end.

Definition exit {A} (st : MStatus) : M A := fun s => (Exit st, s).

Definition when (b : bool) (c : M unit) : M unit :=
  if b then c else ret tt.

Definition run (c : M MStatus) (s : State) : MStatus * State :=
  match c s with
  | (Next st, s') => (st, s')
  | (Exit st, s') => (st, s')
  end.

Declare Scope plugin_scope.
Delimit Scope plugin_scope with plugin.

Notation "'do' x <~ c ; k" := (bind c (fun x => k))
  (at level 10, x name, c at level 100, k at level 200) : plugin_scope.
Notation "c ;> k" := (bind c (fun _ => k))
  (at level 100, k at level 200, right associativity) : plugin_scope.

Local Open Scope plugin_scope.

Definition call (c : Call) : M unit :=
  fun s =>
    (Next tt,
     mkState (g_cpuComputeController s) (g_ompComputeController s)
       (g_cudaComputeController s) (g_clComputeController s)
       (g_clContext s) (g_clQueue s) (heap s) (next_ptr s) (registry s)
       (log s ++ [c])).

(** [new K(...)]: a fresh object on the heap. *)
Definition new (k : Controller) : M nat :=
  fun s =>
    let p := next_ptr s in
    (Next p,
     mkState (g_cpuComputeController s) (g_ompComputeController s)
       (g_cudaComputeController s) (g_clComputeController s)
       (g_clContext s) (g_clQueue s) (<[p := k]> (heap s)) (S p) (registry s)
       (log s ++ [New k p])).

(** [delete p]: nothing for the null pointer; for a pointer to an object on
    the heap, the object leaves the heap.  A pointer whose object is no
    longer there is deleted a second time, which C++ leaves undefined: the
    call is recorded as [DeleteDangling] and nothing else is assumed about
    it. *)
Definition delete_controller (k : Controller) (p : option nat) : M unit :=
  fun s =>
    match p with
    | None => (Next tt, s)
    | Some ptr =>
        match heap s !! ptr with
        | Some _ =>
            (Next tt,
             mkState (g_cpuComputeController s) (g_ompComputeController s)
               (g_cudaComputeController s) (g_clComputeController s)
               (g_clContext s) (g_clQueue s) (delete ptr (heap s)) (next_ptr s)
               (registry s) (log s ++ [Delete k ptr]))
        | None =>
            (Next tt,
             mkState (g_cpuComputeController s) (g_ompComputeController s)
               (g_cudaComputeController s) (g_clComputeController s)
               (g_clContext s) (g_clQueue s) (heap s) (next_ptr s)
               (registry s) (log s ++ [DeleteDangling k ptr]))
        end
    end.

Definition get {A} (f : State -> A) : M A := fun s => (Next (f s), s).

(** Assignment to the global that holds controllers of kind [k]. *)
Definition set_global (k : Controller) (p : nat) : M unit :=
  fun s =>
    (Next tt,
     match k with
     | OsdCpuComputeController =>
         mkState (Some p) (g_ompComputeController s) (g_cudaComputeController s)
           (g_clComputeController s) (g_clContext s) (g_clQueue s) (heap s)
           (next_ptr s) (registry s) (log s)
     | OsdOmpComputeController =>
         mkState (g_cpuComputeController s) (Some p) (g_cudaComputeController s)
           (g_clComputeController s) (g_clContext s) (g_clQueue s) (heap s)
           (next_ptr s) (registry s) (log s)
     | OsdCudaComputeController =>
         mkState (g_cpuComputeController s) (g_ompComputeController s) (Some p)
           (g_clComputeController s) (g_clContext s) (g_clQueue s) (heap s)
           (next_ptr s) (registry s) (log s)
     | OsdCLComputeController =>
         mkState (g_cpuComputeController s) (g_ompComputeController s)
           (g_cudaComputeController s) (Some p) (g_clContext s) (g_clQueue s)
           (heap s) (next_ptr s) (registry s) (log s)
     end).

(** [initCL(&g_clContext, &g_clQueue)]: on success the two globals hold the
    context and the queue. *)
Definition initCL (ok : bool) : M bool :=
  fun s =>
    (Next ok,
     mkState (g_cpuComputeController s) (g_ompComputeController s)
       (g_cudaComputeController s) (g_clComputeController s)
       (if ok then Some 0 else g_clContext s)
       (if ok then Some 0 else g_clQueue s)
       (heap s) (next_ptr s) (registry s) (log s ++ [InitCL ok])).

Definition set_registry (f : Registry -> Registry) : M unit :=
  fun s =>
    (Next tt,
     mkState (g_cpuComputeController s) (g_ompComputeController s)
       (g_cudaComputeController s) (g_clComputeController s)
       (g_clContext s) (g_clQueue s) (heap s) (next_ptr s) (f (registry s))
       (log s)).

(** The three registrations: the entry is made when Maya reports success. *)
Definition registerNode (name : string) (st : MStatus) : M MStatus :=
  call (RegisterNode name st) ;>
  when (status_ok st)
    (set_registry (fun r =>
       mkRegistry (nodes r ++ [name]) (vertexBufferGenerators r)
         (shaderOverrideCreators r))) ;>
  ret st.

Definition registerVertexBufferGenerator (name : string) (st : MStatus) : M MStatus :=
  call (RegisterVertexBufferGenerator name st) ;>
  when (status_ok st)
    (set_registry (fun r =>
       mkRegistry (nodes r) (vertexBufferGenerators r ++ [name])
         (shaderOverrideCreators r))) ;>
  ret st.

Definition registerShaderOverrideCreator (name : string) (st : MStatus) : M MStatus :=
  call (RegisterShaderOverrideCreator name st) ;>
  when (status_ok st)
    (set_registry (fun r =>
       mkRegistry (nodes r) (vertexBufferGenerators r)
         (shaderOverrideCreators r ++ [name]))) ;>
  ret st.

Definition without (name : string) (l : list string) : list string :=
  filter (fun n => n ≠ name) l.

Definition deregisterNode (name : string) : M unit :=
  call (DeregisterNode name) ;>
  set_registry (fun r =>
    mkRegistry (without name (nodes r)) (vertexBufferGenerators r)
      (shaderOverrideCreators r)).

Definition deregisterVertexBufferGenerator (name : string) : M unit :=
  call (DeregisterVertexBufferGenerator name) ;>
  set_registry (fun r =>
    mkRegistry (nodes r) (without name (vertexBufferGenerators r))
      (shaderOverrideCreators r)).

Definition deregisterShaderOverrideCreator (name : string) : M unit :=
  call (DeregisterShaderOverrideCreator name) ;>
  set_registry (fun r =>
    mkRegistry (nodes r) (vertexBufferGenerators r)
      (without name (shaderOverrideCreators r))).

(** [g = new K(...)]. *)
Definition create (k : Controller) : M unit :=
  do p <~ new k; set_global k p.

(** [initializePlugin]. *)
Definition initializePlugin_body (b : Build) (e : Env) : M MStatus :=
  call SwatchInitialize ;>
  when (negb (is_apple b)) (call GlewInit) ;>
  create OsdCpuComputeController ;>
  when (has_openmp b) (create OsdOmpComputeController) ;>
  when (has_cuda b)
    (call CudaInit ;> create OsdCudaComputeController) ;>
  when (has_opencl b)
    (do ok <~ initCL (initCL_ok e);
     (if ok then ret tt
      else
        call (DisplayError "Cannot initialize OpenCL") ;>
        call (Perror "OpenCL initialization") ;>
        exit kFailure) ;>
     create OsdCLComputeController) ;>
  do status <~ registerNode "openSubdivShader" (registerNode_status e);
  do _ignored <~ registerVertexBufferGenerator "osdPosition"
                   (registerVertexBufferGenerator_status e);
  do status <~ registerShaderOverrideCreator "drawdb/shader/surface/OpenSubdivShader"
                 (registerShaderOverrideCreator_status e);
  ret status.

Definition initializePlugin (b : Build) (e : Env) (s : State) : MStatus * State :=
  run (initializePlugin_body b e) s.

(** [uninitializePlugin]: [status] is never assigned after its
    initialisation. *)
Definition uninitializePlugin_body (b : Build) : M MStatus :=
  deregisterNode "openSubdivShader" ;>
  deregisterVertexBufferGenerator "osdPosition" ;>
  deregisterShaderOverrideCreator "drawdb/shader/surface/OpenSubdivShader" ;>
  (do p <~ get g_cpuComputeController; delete_controller OsdCpuComputeController p) ;>
  when (has_openmp b)
    (do p <~ get g_ompComputeController; delete_controller OsdOmpComputeController p) ;>
  when (has_cuda b)
    (do p <~ get g_cudaComputeController; delete_controller OsdCudaComputeController p) ;>
  when (has_opencl b)
    (do p <~ get g_clComputeController; delete_controller OsdCLComputeController p) ;>
  ret kSuccess.

Definition uninitializePlugin (b : Build) (s : State) : MStatus * State :=
  run (uninitializePlugin_body b) s.

(** The controllers a log creates and the ones it deletes, in order. *)
Definition acquired (l : list Call) : list (Controller * nat) :=
  omap (fun c => match c with New k p => Some (k, p) | _ => None end) l.

Definition released (l : list Call) : list (Controller * nat) :=
  omap (fun c => match c with Delete k p => Some (k, p) | _ => None end) l.

(** The live controller objects of a kind. *)
Definition live (k : Controller) (s : State) : nat :=
  length (filter (fun kp => kp.2 = k) (map_to_list (heap s))).

(** The number of controllers of all kinds on the heap. *)
Definition live_total (s : State) : nat := size (heap s).

Definition compiled_in (b : Build) (k : Controller) : bool :=
  match k with
  | OsdCpuComputeController => true
  | OsdOmpComputeController => has_openmp b
  | OsdCudaComputeController => has_cuda b
  | OsdCLComputeController => has_opencl b
  end.

(** The controllers [initializePlugin] gets to create: those compiled in,
    the OpenCL one only when [initCL] succeeded. *)
Definition instantiated (b : Build) (e : Env) (k : Controller) : bool :=
  match k with
  | OsdCLComputeController => has_opencl b && initCL_ok e
  | _ => compiled_in b k
  end.

End Plugin.


(** ** Vocabulary of the properties and a small scene for the examples *)

Module Scene.

Import OsdMeshData ShaderOverride.

(** A change notification as Maya hands it to the callback. *)
Record Notification : Type := mkNotification {
  n_msg : AttributeMessage;
  n_plug : MPlug;
  n_otherPlug : MPlug
}.

Definition notify (n : Notification) (meshData : OsdMeshData.t) : OsdMeshData.t :=
  attrChangedCB (n_msg n) (n_plug n) (n_otherPlug n) meshData.

(** The notification is about the mesh output of the binding's node. *)
Definition targets_outMesh (meshData : OsdMeshData.t) (n : Notification) : bool :=
  plug_is (n_plug n) (attribute (node (getDagPath meshData)) "outMesh").

(** The notification is about the binding's node, but about another
    attribute than its mesh output. *)
Definition other_attribute_of_node (meshData : OsdMeshData.t) (n : Notification) : bool :=
  Nat.eqb (plug_node (n_plug n)) (node_handle (node (getDagPath meshData)))
  && negb (targets_outMesh meshData n).

(** Every id Maya has in its callback table was issued before the next
    one. *)
Definition ids_issued (w : World) : Prop :=
  ∀ id sub, callbacks w !! id = Some sub → id < nextCallbackId w.

(** What ties an override to the world between two calls: Maya issued the
    ids it holds, they are pairwise different and each is a live entry of
    the callback table. *)
Record owns (ov : ShaderOverride.t) (w : World) : Prop := mkOwns {
  owns_issued : ids_issued w;
  owns_below : Forall (fun id => id < nextCallbackId w) (_callbackIds ov);
  owns_nodup : NoDup (_callbackIds ov);
  owns_live : Forall (fun id => is_Some (callbacks w !! id)) (_callbackIds ov)
}.

(** The number of registrations Maya accepted. *)
Definition accepted (calls : list InitCall) : nat :=
  length (filter (fun c => ic_accept c = true) calls).

(** A mesh shape with three attributes. *)
Definition meshShape : DepNode :=
  mkDepNode 10 [("inMesh", 100); ("outMesh", 101); ("displaySmoothMesh", 102)].

Definition meshPath : MDagPath := mkDagPath meshShape None.

Definition cleanData : OsdMeshData.t := OsdMeshData.mk meshPath false false false.

Definition outMeshPlug : MPlug := mkPlug 10 101.
Definition inMeshPlug : MPlug := mkPlug 10 100.
Definition noPlug : MPlug := mkPlug 0 0.

(** outMesh is written, not evaluated. *)
Definition set_outMesh : Notification :=
  mkNotification kAttributeSet outMeshPlug noPlug.

(** Another attribute of the same node is evaluated. *)
Definition eval_inMesh : Notification :=
  mkNotification kAttributeEval inMeshPlug noPlug.


Definition emptyWorld : World := mkWorld ∅ 1 ∅ 1 [].

(** A render item whose mesh data is there, with the two vertex buffers
    [initialize] asks for, and one whose custom data is still NULL. *)
Definition readyItem : Draw.MRenderItem :=
  Draw.mkRenderItem (Some 7)
    [Draw.mkVertexBuffer 1 (mkDescriptor EmptyString kPosition EmptyString kFloat 3);
     Draw.mkVertexBuffer 2
       (setSemanticName "osdPosition"
          (mkDescriptor "osdPosition" kTangent EmptyString kFloat 3))].

Definition unreadyItem : Draw.MRenderItem := Draw.mkRenderItem None [].

(** An override after [updateDG] found shader 5. *)
Definition boundOverride : ShaderOverride.t :=
  updateDG (Some (Some 5)) (creator 0).

Definition someContext : Draw.MDrawContext :=
  Draw.mkContext (Some 1) (Some 2) (Draw.mkBlendDesc false [true]).

(** The descriptor of the osdPosition stream, as [initialize] declares it,
    and a mesh of two points; integers stand in for the coordinates. *)
Definition osdPosition : MVertexBufferDescriptor :=
  setSemanticName "osdPosition" (mkDescriptor "osdPosition" kTangent EmptyString kFloat 3).

(** Builds with the optional backends, and what the outside may answer. *)
Definition ompBuild : Plugin.Build := Plugin.mkBuild false true false false.
Definition clBuild : Plugin.Build := Plugin.mkBuild false false false true.
Definition fullBuild : Plugin.Build := Plugin.mkBuild false true true true.

Definition allFine : Plugin.Env := Plugin.mkEnv true kSuccess kSuccess kSuccess.
Definition noOpenCL : Plugin.Env := Plugin.mkEnv false kSuccess kSuccess kSuccess.

Definition twoPoints : OsdBufferGenerator.MFnMesh Z :=
  OsdBufferGenerator.mkMesh
    [OsdBufferGenerator.mkPoint 1 2 3 1; OsdBufferGenerator.mkPoint 4 5 6 1]%Z.

(** The life of an override with both of its update entry points: calls of
    [initialize] and calls of [updateDG], in any order. *)
Inductive LifeStep : Type :=
  | DoInitialize (c : InitCall)
  | DoUpdateDG (object : option (option nat)).

Fixpoint life (steps : list LifeStep) (ov : ShaderOverride.t) (w : World)
  : ShaderOverride.t * World :=
  match steps with
  | [] => (ov, w)
  | DoInitialize c :: rest =>
      let '(_, _, ov1, w1) := initialize c ov w in
      life rest ov1 w1
  | DoUpdateDG object :: rest => life rest (updateDG object ov) w
  end.

(** The registrations Maya refused. *)
Definition refused (calls : list InitCall) : nat :=
  length (filter (fun c => ic_accept c = false) calls).

(** Every controller object on the heap was allocated before the next
    pointer. *)
Definition heap_allocated (s : Plugin.State) : Prop :=
  ∀ p k, Plugin.heap s !! p = Some k → p < Plugin.next_ptr s.

(** The number of controllers [initializePlugin] gets to create. *)
Definition created (b : Plugin.Build) (e : Plugin.Env) : nat :=
  1 + (if Plugin.has_openmp b then 1 else 0) + (if Plugin.has_cuda b then 1 else 0)
    + (if Plugin.has_opencl b && Plugin.initCL_ok e then 1 else 0).

(** The global that holds the controller of a kind. *)
Definition global_of (k : Plugin.Controller) (s : Plugin.State) : option nat :=
  match k with
  | Plugin.OsdCpuComputeController => Plugin.g_cpuComputeController s
  | Plugin.OsdOmpComputeController => Plugin.g_ompComputeController s
  | Plugin.OsdCudaComputeController => Plugin.g_cudaComputeController s
  | Plugin.OsdCLComputeController => Plugin.g_clComputeController s
  end.

(** The controllers the globals of the compiled-in kinds point to, in the
    order in which [uninitializePlugin] deletes them. *)
Definition held (b : Plugin.Build) (s : Plugin.State)
  : list (Plugin.Controller * nat) :=
  omap (fun k =>
          if Plugin.compiled_in b k then (fun p => (k, p)) <$> global_of k s
          else None)
    [Plugin.OsdCpuComputeController; Plugin.OsdOmpComputeController;
     Plugin.OsdCudaComputeController; Plugin.OsdCLComputeController].

(** Each of these globals is null or points to an object of its own that is
    on the heap. *)
Definition globals_sound (b : Plugin.Build) (s : Plugin.State) : Prop :=
  NoDup (held b s).*2
  ∧ ∀ k p, (k, p) ∈ held b s → is_Some (Plugin.heap s !! p).

(** The stage calls that raise in the examples: every [prepare]. *)
Definition prepare_raises (c : Draw.Call) : bool :=
  match c with
  | Draw.Prepare _ => true
  | _ => false
  end.

(** The buffer of a render item is the osdPosition stream. *)
Definition is_osdPosition (vb : Draw.MVertexBuffer) : bool :=
  String.eqb (vbd_name (Draw.descriptor vb)) "osdPosition".


(** A cube's face-vertex list. *)
Definition cubeVertices : OsdBufferGenerator.MeshVertices :=
  OsdBufferGenerator.mkMeshVertices [4; 4; 4; 4; 4; 4]%Z
    [0; 1; 3; 2; 2; 3; 5; 4; 4; 5; 7; 6; 6; 7; 1; 0; 1; 7; 5; 3; 6; 0; 2; 4]%Z.

End Scene.

(** * Properties *)

(** ** The attribute-changed callback *)

Section AttrChanged.

Import OsdMeshData ShaderOverride Scene.

Variables (msg : AttributeMessage) (plug otherPlug : MPlug).
Variable meshData : OsdMeshData.t.

Let outMesh := attribute (node (getDagPath meshData)) "outMesh".



Lemma attrChangedCB_relevant :
  has_bit msg kAttributeEval && plug_is plug outMesh = true →
  attrChangedCB msg plug otherPlug meshData = setMeshTopoDirty meshData.
Proof.
  unfold attrChangedCB. fold outMesh.
  intros [-> ->]%andb_true_iff. reflexivity.
Qed.

Lemma attrChangedCB_irrelevant :
  has_bit msg kAttributeEval && plug_is plug outMesh = false →
  attrChangedCB msg plug otherPlug meshData = meshData.
Proof.
  unfold attrChangedCB. fold outMesh.
  destruct (has_bit msg kAttributeEval); [|reflexivity].
  simpl. intros ->. reflexivity.
Qed.


(** C1 (amended). The flag after the callback is the flag before it, or-ed
    with "the message has kAttributeEval and the plug is outMesh": every
    evaluation of outMesh marks the mesh dirty, whatever else the message
    carries and whether or not the topology really changed, and any other
    notification is ignored.  The other fields are never touched. *)
Theorem attrChangedCB_marks_outMesh_evaluation_only :
  topologyDirty (attrChangedCB msg plug otherPlug meshData)
    = topologyDirty meshData || (has_bit msg kAttributeEval && plug_is plug outMesh)
  ∧ getDagPath (attrChangedCB msg plug otherPlug meshData) = getDagPath meshData
  ∧ attributesDirty (attrChangedCB msg plug otherPlug meshData) = attributesDirty meshData
  ∧ buffersStaleForFrame (attrChangedCB msg plug otherPlug meshData)
      = buffersStaleForFrame meshData.
Proof.
  destruct (has_bit msg kAttributeEval && plug_is plug outMesh) eqn:E.
  - rewrite (attrChangedCB_relevant E). simpl. rewrite orb_true_r. auto.
  - rewrite (attrChangedCB_irrelevant E). rewrite orb_false_r. auto.
Qed.

End AttrChanged.

Section AttrChangedExamples.

Import OsdMeshData ShaderOverride Scene.


(** C1, as stated, fails.  Writing outMesh is a notification about the mesh
    output itself, and evaluating inMesh is a notification about another
    attribute of the same node; neither can be told to be unrelated to the
    topology, and the callback leaves the clean flags as they are in both
    cases. *)
Lemma attrChangedCB_ignores_ambiguous_events :
  (targets_outMesh cleanData set_outMesh = true
   ∧ notify set_outMesh cleanData = cleanData)
  ∧ (other_attribute_of_node cleanData eval_inMesh = true
     ∧ notify eval_inMesh cleanData = cleanData)
  ∧ topologyDirty cleanData = false.
Proof. repeat split; reflexivity. Qed.


End AttrChangedExamples.

(** ** Callback ids: registration and teardown *)

Section Teardown.

Import ShaderOverride Scene.

Lemma removeCallbacks_snoc (ids : list nat) (id : nat) (m : gmap nat Subscription) :
  foldr delete m (ids ++ [id]) = foldr delete (delete id m) ids.
Proof. rewrite foldr_app. reflexivity. Qed.

Lemma addTopologyChangedCallbacks_refused dagPath data ov w :
  addTopologyChangedCallbacks false dagPath data ov w
    = (ov, print_cerr "MNodeMessage.addCallback failed" w).
Proof. reflexivity. Qed.

Lemma addTopologyChangedCallbacks_accepted dagPath data ov w :
  ∃ w',
    addTopologyChangedCallbacks true dagPath data ov w
      = (append_id (nextCallbackId w) ov, w')
    ∧ callbacks w'
        = <[nextCallbackId w :=
              mkSubscription (node_handle (node (extendToShape dagPath))) data]>
            (callbacks w)
    ∧ nextCallbackId w' = S (nextCallbackId w).
Proof. eexists. split; [reflexivity|]. split; reflexivity. Qed.

(** One registration attempt keeps the ownership invariant, leaves the
    table-minus-own-ids unchanged and records an id exactly when Maya
    accepted. *)
Lemma addTopologyChangedCallbacks_step accept dagPath data ov w ov' w' :
  owns ov w →
  addTopologyChangedCallbacks accept dagPath data ov w = (ov', w') →
  owns ov' w'
  ∧ foldr delete (callbacks w') (_callbackIds ov')
      = foldr delete (callbacks w) (_callbackIds ov)
  ∧ length (_callbackIds ov')
      = length (_callbackIds ov) + (if accept then 1 else 0).
Proof.
  intros [Hiss Hbelow Hnd Hlive] Hrun. destruct accept.
  - destruct (addTopologyChangedCallbacks_accepted dagPath data ov w)
      as (w1 & Heq & Hcb & Hnext).
    rewrite Heq in Hrun. injection Hrun as <- <-.
    assert (Hfresh : callbacks w !! nextCallbackId w = None).
    { destruct (callbacks w !! nextCallbackId w) as [sub|] eqn:E; [|reflexivity].
      apply Hiss in E. lia. }
    split; [|split].
    + split; simpl.
      * intros id sub. rewrite Hcb, Hnext, lookup_insert.
        case_decide; [intros _; lia|]. intros Hsub%Hiss. lia.
      * rewrite Hnext. apply Forall_app. split.
        -- eapply Forall_impl; [exact Hbelow|]. simpl. intros. lia.
        -- constructor; [lia | constructor].
      * apply NoDup_app. split; [exact Hnd|]. split.
        -- intros id Hin Hin'. apply list_elem_of_singleton in Hin'. subst id.
           rewrite Forall_forall in Hbelow. apply Hbelow in Hin. lia.
        -- apply NoDup_singleton.
      * rewrite Hcb. apply Forall_app. split.
        -- eapply Forall_impl; [exact Hlive|]. simpl. intros id Hsome.
           rewrite lookup_insert. case_decide; [eexists; reflexivity | exact Hsome].
        -- constructor; [|constructor]. rewrite lookup_insert_eq. eexists; reflexivity.
    + simpl. rewrite removeCallbacks_snoc, Hcb, delete_insert_id by exact Hfresh.
      reflexivity.
    + simpl. rewrite length_app. reflexivity.
  - rewrite addTopologyChangedCallbacks_refused in Hrun. injection Hrun as <- <-.
    split; [|split].
    + split; assumption.
    + reflexivity.
    + simpl. lia.
Qed.

Lemma owns_store ov w store next :
  owns ov w →
  owns ov (mkWorld (callbacks w) (nextCallbackId w) store next (cerr w)).
Proof. intros [? ? ? ?]. split; assumption. Qed.

Lemma owns_requirement d ov w : owns ov w → owns (addGeometryRequirement d ov) w.
Proof. intros [? ? ? ?]. split; assumption. Qed.

Lemma initialize_step c ov w name data ov' w' :
  owns ov w →
  initialize c ov w = (name, data, ov', w') →
  owns ov' w'
  ∧ foldr delete (callbacks w') (_callbackIds ov')
      = foldr delete (callbacks w) (_callbackIds ov)
  ∧ length (_callbackIds ov')
      = length (_callbackIds ov) + (if ic_accept c then 1 else 0).
Proof.
  intros Hown. unfold initialize.
  set (ov2 := addGeometryRequirement _ (addGeometryRequirement _ ov)).
  assert (Hown2 : owns ov2 w) by (do 2 apply owns_requirement; exact Hown).
  destruct (ic_customData c) as [p|].
  - destruct (addTopologyChangedCallbacks _ _ p ov2 w) as [ov3 w2] eqn:E.
    intros [= _ _ <- <-].
    exact (addTopologyChangedCallbacks_step _ _ _ _ _ _ _ Hown2 E).
  - unfold new_OsdMeshData.
    match goal with
    | |- context [addTopologyChangedCallbacks ?a ?p ?d ov2 ?w1] =>
        destruct (addTopologyChangedCallbacks a p d ov2 w1) as [ov3 w2] eqn:E;
        pose proof (addTopologyChangedCallbacks_step a p d ov2 w1 ov3 w2
                      (owns_store _ _ _ _ Hown2) E) as Hstep
    end.
    intros [= _ _ <- <-]. exact Hstep.
Qed.

Lemma lifetime_keeps calls : ∀ ov w ov' w',
  owns ov w →
  lifetime calls ov w = (ov', w') →
  owns ov' w'
  ∧ foldr delete (callbacks w') (_callbackIds ov')
      = foldr delete (callbacks w) (_callbackIds ov)
  ∧ length (_callbackIds ov') = length (_callbackIds ov) + accepted calls.
Proof.
  induction calls as [|c rest IH]; intros ov w ov' w' Hown; simpl.
  - intros [= <- <-]. split; [exact Hown|]. split; [reflexivity|].
    unfold accepted. simpl. lia.
  - destruct (initialize c ov w) as [[[name data] ov1] w1] eqn:E.
    destruct (initialize_step _ _ _ _ _ _ _ Hown E) as (Hown1 & Hdel1 & Hlen1).
    intros Hrest. destruct (IH _ _ _ _ Hown1 Hrest) as (Hown' & Hdel' & Hlen').
    split; [exact Hown'|]. split; [congruence|].
    rewrite Hlen', Hlen1. unfold accepted. rewrite filter_cons.
    destruct (ic_accept c); case_decide; simpl; (discriminate || congruence || lia).
Qed.

Lemma deliver_absent id msg plug otherPlug w :
  callbacks w !! id = None → deliver id msg plug otherPlug w = w.
Proof. unfold deliver. intros ->. reflexivity. Qed.

(** C7. Take an override from its creation through any number of
    [initialize] calls, each of whose registrations Maya accepts or refuses,
    and then destroy it.  The ids it recorded are exactly as many as Maya
    accepted, pairwise different, and live entries of the callback table up
    to the teardown; the destructor removes every one of them, so that the
    table is again the one from before the override existed, and a
    notification for any of its ids no longer runs the callback. *)
Theorem destructor_removes_every_recorded_callback
    (obj : nat) (calls : list InitCall) (w : World) :
  ids_issued w →
  let ov := (lifetime calls (creator obj) w).1 in
  let w' := (lifetime calls (creator obj) w).2 in
  (length (_callbackIds ov) = accepted calls ∧ NoDup (_callbackIds ov)
   ∧ ∀ id, id ∈ _callbackIds ov → is_Some (callbacks w' !! id))
  ∧ callbacks (destructor ov w') = callbacks w
  ∧ ∀ id, id ∈ _callbackIds ov →
      callbacks (destructor ov w') !! id = None
      ∧ ∀ msg plug otherPlug,
          deliver id msg plug otherPlug (destructor ov w') = destructor ov w'.
Proof.
  intros Hiss ov w'.
  assert (Hown : owns (creator obj) w).
  { split; simpl; [exact Hiss | constructor | constructor | constructor]. }
  destruct (lifetime_keeps calls (creator obj) w ov w' Hown)
    as ([_ _ Hnd Hlive] & Hdel & Hlen).
  { unfold ov, w'. destruct (lifetime calls (creator obj) w). reflexivity. }
  split; [|split].
  - split; [exact Hlen|]. split; [exact Hnd|].
    intros id Hin. rewrite Forall_forall in Hlive. exact (Hlive id Hin).
  - simpl. exact Hdel.
  - intros id Hin.
    assert (Hgone : callbacks (destructor ov w') !! id = None).
    { simpl. apply lookup_foldr_delete. exact Hin. }
    split; [exact Hgone|]. intros. apply deliver_absent. exact Hgone.
Qed.

End Teardown.

Section TeardownExample.

Import ShaderOverride Scene.

(** Two [initialize] calls on the sample shape, the second refused. *)
Lemma destructor_removes_every_recorded_callback_witness :
  ids_issued emptyWorld
  ∧ callbacks
      (destructor
         (lifetime [mkInitCall meshPath None true; mkInitCall meshPath (Some 1) false]
            (creator 0) emptyWorld).1
         (lifetime [mkInitCall meshPath None true; mkInitCall meshPath (Some 1) false]
            (creator 0) emptyWorld).2)
    = callbacks emptyWorld.
Proof.
  assert (H : ids_issued emptyWorld).
  { intros id sub. simpl. rewrite lookup_empty. discriminate. }
  split; [exact H|].
  apply (destructor_removes_every_recorded_callback 0
           [mkInitCall meshPath None true; mkInitCall meshPath (Some 1) false]
           emptyWorld H).
Defined.

End TeardownExample.

(** ** The per-frame draw *)

Section DrawStages.

Import ShaderOverride Draw Scene.

Lemma setup_state_no_stage context st :
  stage_calls (setup_state context st).2 = [].
Proof.
  unfold setup_state. destruct (depthState st), (blendState st); reflexivity.
Qed.

Lemma stage_calls_item_stages sh it :
  stage_calls (item_stages sh it) = item_stages sh it.
Proof. unfold item_stages. destruct (customData it); reflexivity. Qed.

Lemma stage_calls_flat_map sh items :
  stage_calls (flat_map (item_stages sh) items) = flat_map (item_stages sh) items.
Proof.
  induction items as [|it rest IH]; simpl; [reflexivity|].
  unfold stage_calls in *. rewrite filter_app.
  fold (stage_calls (item_stages sh it)). rewrite stage_calls_item_stages, IH.
  reflexivity.
Qed.

Lemma item_stages_ready sh it data :
  customData it = Some data →
  item_stages sh it
    = [RebuildHbrMeshIfNeeded data (Some sh); Prepare data;
       UpdateGeometry data (find_position (geometry it)); ShaderDraw sh data].
Proof. unfold item_stages. intros ->. reflexivity. Qed.

(** The loop with the shader in place: it stops at the first item without
    data, and up to there every item gets its four calls. *)
Lemma draw_items_bound sh items :
  draw_items (Some sh) items
    = (Returned (forallb has_data items),
       flat_map (item_stages sh) (ready_prefix items)).
Proof.
  induction items as [|it rest IH]; [reflexivity|].
  cbn [draw_items forallb ready_prefix].
  assert (Hd : has_data it = bool_decide (is_Some (customData it))).
  { unfold has_data. destruct (customData it); reflexivity. }
  rewrite !Hd. destruct (customData it) as [data|] eqn:E; [|reflexivity].
  rewrite IH. change (bool_decide (is_Some (Some data))) with true.
  cbn [flat_map andb]. rewrite (item_stages_ready sh it data E). reflexivity.
Qed.

Lemma ready_prefix_all items :
  forallb has_data items = true → ready_prefix items = items.
Proof.
  induction items as [|it rest IH]; simpl; [reflexivity|].
  intros [-> H]%andb_true_iff. rewrite (IH H). reflexivity.
Qed.

Lemma ready_prefix_split pre it post :
  forallb has_data pre = true → customData it = None →
  ready_prefix (pre ++ it :: post) = pre
  ∧ forallb has_data (pre ++ it :: post) = false.
Proof.
  intros Hpre Hit. induction pre as [|p pre IH]; simpl.
  - unfold has_data. rewrite Hit. split; reflexivity.
  - simpl in Hpre. apply andb_true_iff in Hpre as [-> Hpre].
    destruct (IH Hpre) as [-> ->]. split; reflexivity.
Qed.

Lemma forallb_has_data_false items :
  forallb has_data items = false ↔ ∃ it, it ∈ items ∧ customData it = None.
Proof.
  induction items as [|it rest IH]; simpl.
  - split; [discriminate | intros (it & Hin & _); inversion Hin].
  - rewrite andb_false_iff, IH. unfold has_data. split.
    + intros [H | (it' & Hin & Hnone)].
      * exists it. split; [left | destruct (customData it); [discriminate | reflexivity]].
      * exists it'. split; [right; exact Hin | exact Hnone].
    + intros (it' & Hin & Hnone). apply elem_of_cons in Hin as [-> | Hin].
      * left. rewrite Hnone. reflexivity.
      * right. exists it'. split; assumption.
Qed.

Lemma draw_bound ov sh context items st :
  _shader ov = Some sh →
  draw ov context items st
    = (Returned (forallb has_data items), (setup_state context st).1,
       (setup_state context st).2
         ++ flat_map (item_stages sh) (ready_prefix items)).
Proof.
  intros Hsh. unfold draw. rewrite Hsh, draw_items_bound.
  destruct (setup_state context st). reflexivity.
Qed.

Lemma stage_calls_draw_bound context st sh items :
  stage_calls ((setup_state context st).2 ++ flat_map (item_stages sh) items)
    = flat_map (item_stages sh) items.
Proof.
  unfold stage_calls. rewrite filter_app.
  fold (stage_calls (setup_state context st).2).
  fold (stage_calls (flat_map (item_stages sh) items)).
  rewrite setup_state_no_stage, stage_calls_flat_map. reflexivity.
Qed.


Lemma item_stages_are_stages sh items :
  Forall (fun c => is_stage c = true) (flat_map (item_stages sh) items).
Proof.
  induction items as [|it rest IH]; simpl; [constructor|].
  apply Forall_app. split; [|exact IH].
  unfold item_stages. destruct (customData it); repeat constructor.
Qed.

Lemma stage_calls_all (l : list Call) :
  Forall (fun c => is_stage c = true) l → stage_calls l = l.
Proof.
  induction 1 as [|c l Hc _ IH]; [reflexivity|].
  unfold stage_calls in *. rewrite filter_cons_True by (rewrite Hc; exact I).
  f_equal. exact IH.
Qed.

Lemma until_raise_setup raises context st (l : list Call) :
  until_raise raises ((setup_state context st).2 ++ l)
    = ((setup_state context st).2 ++ (until_raise raises l).1,
       (until_raise raises l).2).
Proof.
  unfold setup_state.
  destruct (depthState st), (blendState st); simpl;
    destruct (until_raise raises l); reflexivity.
Qed.

Lemma until_raise_quiet raises (l : list Call) :
  Forall (fun c => raises c = false) l → until_raise raises l = (l, None).
Proof.
  induction 1 as [|c l Hc _ IH]; [reflexivity|].
  simpl. rewrite Hc, andb_false_r, IH. reflexivity.
Qed.

Lemma until_raise_first raises (pre post : list Call) (c : Call) :
  Forall (fun c' => raises c' = false) pre →
  is_stage c = true → raises c = true →
  until_raise raises (pre ++ c :: post) = (pre ++ [c], Some c).
Proof.
  intros Hpre Hst Hc. induction Hpre as [|a pre Ha _ IH]; simpl.
  - rewrite Hst, Hc. reflexivity.
  - rewrite Ha, andb_false_r, IH. reflexivity.
Qed.

(** C6 (amended). With the shader pointer saved, and with [stages] the stage
    calls of the render items in front of the first item without custom
    data: when none of these calls raises, [draw] returns its boolean, false
    exactly when some item has NULL custom data; for the first such item the
    calls made are those of the items in front of it, so nothing is refined
    or drawn for it, and a later request whose items all have their data and
    whose calls do not raise returns true and draws every item.  Nothing
    else is absorbed: when one of the stage calls raises, [draw] is left at
    the first such call with the exception. *)
Theorem draw_absorbs_missing_data_only
    (raises : Call → bool) (ov : ShaderOverride.t) (sh : nat)
    (context : MDrawContext) (items : list MRenderItem) (st : Statics) :
  _shader ov = Some sh →
  let stages := flat_map (item_stages sh) (ready_prefix items) in
  (Forall (fun c => raises c = false) stages →
   ∃ b st' log,
     draw_raising raises ov context items st = (Completed (Returned b), st', log)
     ∧ stage_calls log = stages
     ∧ (b = false ↔ ∃ it, it ∈ items ∧ customData it = None)
     ∧ (∀ pre it post,
          items = pre ++ it :: post → forallb has_data pre = true →
          customData it = None →
          b = false ∧ stage_calls log = flat_map (item_stages sh) pre)
     ∧ (∀ context2 items2,
          forallb has_data items2 = true →
          Forall (fun c => raises c = false) (flat_map (item_stages sh) items2) →
          ∃ st'' log2,
            draw_raising raises ov context2 items2 st'
              = (Completed (Returned true), st'', log2)
            ∧ stage_calls log2 = flat_map (item_stages sh) items2))
  ∧ (∀ pre c post,
       stages = pre ++ c :: post →
       Forall (fun c' => raises c' = false) pre → raises c = true →
       ∃ st' log,
         draw_raising raises ov context items st = (Propagated c, st', log)
         ∧ stage_calls log = pre ++ [c]).
Proof.
  intros Hsh stages.
  assert (Hquiet : ∀ context1 items1 st1,
            Forall (fun c => raises c = false)
              (flat_map (item_stages sh) (ready_prefix items1)) →
            draw_raising raises ov context1 items1 st1
              = (Completed (Returned (forallb has_data items1)),
                 (setup_state context1 st1).1,
                 (setup_state context1 st1).2
                   ++ flat_map (item_stages sh) (ready_prefix items1))).
  { intros context1 items1 st1 Hno. unfold draw_raising.
    rewrite (draw_bound ov sh context1 items1 st1 Hsh), until_raise_setup,
      (until_raise_quiet raises _ Hno).
    reflexivity. }
  split.
  - intros Hno. eexists _, _, _. split; [apply (Hquiet context items st Hno)|].
    split; [apply stage_calls_draw_bound|].
    split; [apply forallb_has_data_false|]. split.
    + intros pre it post -> Hpre Hit.
      destruct (ready_prefix_split pre it post Hpre Hit) as [Hp Hf].
      split; [exact Hf|]. rewrite stage_calls_draw_bound, Hp. reflexivity.
    + intros context2 items2 Hall Hno2. eexists _, _.
      rewrite (Hquiet context2 items2).
      * rewrite Hall. split; [reflexivity|].
        rewrite stage_calls_draw_bound, (ready_prefix_all _ Hall). reflexivity.
      * rewrite (ready_prefix_all _ Hall). exact Hno2.
  - intros pre c post Hsplit Hpre Hc.
    pose proof (item_stages_are_stages sh (ready_prefix items)) as Hall.
    fold stages in Hall. rewrite Hsplit in Hall.
    apply Forall_app in Hall as [Hpre_st Hrest].
    apply Forall_cons in Hrest as [Hc_st _].
    eexists _, _. split.
    + unfold draw_raising.
      rewrite (draw_bound ov sh context items st Hsh), until_raise_setup.
      fold stages. rewrite Hsplit, (until_raise_first raises pre post c Hpre Hc_st Hc).
      reflexivity.
    + unfold stage_calls. simpl. rewrite filter_app.
      fold (stage_calls (setup_state context st).2).
      fold (stage_calls (pre ++ [c])).
      rewrite setup_state_no_stage, stage_calls_all; [reflexivity|].
      apply Forall_app. split; [exact Hpre_st | repeat constructor; exact Hc_st].
Qed.

End DrawStages.

Section DrawExamples.

Import ShaderOverride Draw Scene.



(** Why the properties of [draw] ask for the shader pointer: an override
    that [updateDG] has not yet given a shader refines a ready item and then
    stands at [_shader->draw] with the null pointer. *)
Lemma draw_before_updateDG st :
  (draw (creator 0) someContext [readyItem] st).1.1 = NullShader.
Proof. destruct st as [[d|] [b|]]; reflexivity. Qed.

(** A frame whose only item has no data, no call raising. *)
Lemma draw_absorbs_missing_data_only_witness :
  _shader boundOverride = Some 5
  ∧ ∃ b st' log,
      draw_raising (fun _ => false) boundOverride someContext [unreadyItem]
        (mkStatics None None)
        = (Completed (Returned b), st', log)
      ∧ (b = false ↔ ∃ it, it ∈ [unreadyItem] ∧ customData it = None).
Proof.
  split; [reflexivity|].
  destruct (draw_absorbs_missing_data_only (fun _ => false) boundOverride 5
              someContext [unreadyItem] (mkStatics None None) eq_refl) as [Hquiet _].
  destruct (Hquiet ltac:(constructor)) as (b & st' & log & Hrun & _ & Hiff & _).
  exists b, st', log. split; [exact Hrun | exact Hiff].
Defined.

(** C6, as stated, fails: not every error of a frame is absorbed.  After an
    [updateDG] that found no shader, the draw of a ready item ends at
    [_shader->draw] with the null pointer; and with the shader in place, a
    [prepare] that raises takes its exception out of [draw]. *)
Lemma draw_lets_errors_through :
  (draw (updateDG (Some None) boundOverride) someContext [readyItem]
     (mkStatics None None)).1.1
  = NullShader
  ∧ (draw_raising prepare_raises boundOverride someContext [readyItem]
       (mkStatics None None)).1.1
    = Propagated (Prepare 7).
Proof. split; reflexivity. Qed.

End DrawExamples.

(** ** The position vertex-buffer generator *)

Section PositionStream.

Import OsdBufferGenerator.

Context {float : Type}.

Implicit Types (points : list (MFloatPoint float)) (buffer : list (option float)).

Lemma store_inside dst (v : float) buffer :
  dst < length buffer → store dst v buffer = Some (<[dst := Some v]> buffer).
Proof. intros H. unfold store. rewrite decide_True by exact H. reflexivity. Qed.

(** One vertex: three consecutive cells receive x, y and z. *)
Lemma store_vertex dst (p : MFloatPoint float) buffer :
  dst + 2 < length buffer →
  ∃ b3,
    (store dst (x p) buffer ≫= λ b1,
       store (dst + 1) (y p) b1 ≫= λ b2, store (dst + 2) (z p) b2) = Some b3
    ∧ length b3 = length buffer
    ∧ b3 !! dst = Some (Some (x p))
    ∧ b3 !! (dst + 1) = Some (Some (y p))
    ∧ b3 !! (dst + 2) = Some (Some (z p))
    ∧ ∀ k, (k < dst ∨ dst + 3 ≤ k) → b3 !! k = buffer !! k.
Proof.
  intros Hlen.
  exists (<[dst + 2 := Some (z p)]> (<[dst + 1 := Some (y p)]> (<[dst := Some (x p)]> buffer))).
  split.
  { rewrite store_inside by lia. cbn [mbind option_bind].
    rewrite store_inside by (rewrite length_insert; lia). cbn [mbind option_bind].
    rewrite store_inside by (rewrite !length_insert; lia). reflexivity. }
  split; [rewrite !length_insert; reflexivity|].
  split.
  { rewrite !list_lookup_insert_ne by lia. apply list_lookup_insert_eq. lia. }
  split.
  { rewrite list_lookup_insert_ne by lia. apply list_lookup_insert_eq.
    rewrite length_insert. lia. }
  split.
  { apply list_lookup_insert_eq. rewrite !length_insert. lia. }
  intros k Hk. rewrite !list_lookup_insert_ne by lia. reflexivity.
Qed.

(** The loop invariant: [count] iterations from ([i], [dst]) succeed when
    the points and the memory reach that far, advance [dst] by three per
    vertex, write vertex [i + j] to the cells from [dst + 3 j] on and leave
    every cell outside the range alone. *)
Lemma copy_points_spec points : ∀ count i dst buffer,
  i + count ≤ length points →
  dst + 3 * count ≤ length buffer →
  ∃ filled,
    copy_points points count i dst buffer = Some (dst + 3 * count, filled)
    ∧ length filled = length buffer
    ∧ (∀ k, (k < dst ∨ dst + 3 * count ≤ k) → filled !! k = buffer !! k)
    ∧ ∀ j p, j < count → points !! (i + j) = Some p →
        filled !! (dst + 3 * j) = Some (Some (x p))
        ∧ filled !! (dst + 3 * j + 1) = Some (Some (y p))
        ∧ filled !! (dst + 3 * j + 2) = Some (Some (z p)).
Proof.
  induction count as [|count IH]; intros i dst buffer Hpts Hbuf.
  - exists buffer. simpl. rewrite Nat.add_0_r.
    split; [reflexivity|]. split; [reflexivity|]. split; [reflexivity|].
    intros j p Hj. lia.
  - destruct (lookup_lt_is_Some_2 points i) as [p Hp]; [lia|].
    destruct (store_vertex dst p buffer) as (b3 & Hst & Hlen3 & Hx & Hy & Hz & Hout);
      [lia|].
    destruct (IH (S i) (dst + 3) b3) as (filled & Hrun & Hlen & Hframe & Hcells);
      [lia | lia |].
    exists filled. split.
    { cbn [copy_points]. rewrite Hp. cbn [mbind option_bind].
      cbn [mbind option_bind] in Hst.
      destruct (store dst (x p) buffer) as [b1|]; [|discriminate].
      cbn [mbind option_bind] in Hst |- *.
      destruct (store (dst + 1) (y p) b1) as [b2|]; [|discriminate].
      cbn [mbind option_bind] in Hst |- *.
      rewrite Hst. cbn [mbind option_bind]. rewrite Hrun. f_equal. f_equal. lia. }
    split; [congruence|]. split.
    { intros k Hk. rewrite Hframe by lia. apply Hout. lia. }
    intros [|j] q Hj Hq.
    + rewrite Nat.add_0_r in Hq. rewrite Hp in Hq. injection Hq as <-.
      rewrite Nat.mul_0_r, Nat.add_0_r.
      rewrite !Hframe by lia. auto.
    + replace (i + S j) with (S i + j) in Hq by lia.
      destruct (Hcells j q) as (Hx' & Hy' & Hz'); [lia | exact Hq |].
      replace (dst + 3 * S j) with (dst + 3 + 3 * j) by lia. auto.
Qed.

Lemma length_acquire (d : MVertexBufferDescriptor) size :
  length (acquire (float := float) d size) = size * vbd_dimension d.
Proof. unfold acquire. apply length_replicate. Qed.

(** C10. For a mesh of n vertices and a vertex buffer of three floats per
    vertex, [createVertexStream] acquires room for n vertices, performs 3 n
    writes that fill all 3 n cells, with the x, y and z of point i in cells
    3 i, 3 i + 1 and 3 i + 2, and commits that memory as its last call. *)
Theorem createVertexStream_copies_positions
    (meshFn : MFnMesh float) (vertexBuffer : MVertexBufferDescriptor) :
  vbd_dimension vertexBuffer = 3 →
  let n := numVertices meshFn in
  ∃ filled,
    createVertexStream meshFn vertexBuffer = Some [Acquire n; Commit filled]
    ∧ copy_points (getPoints meshFn) n 0 0 (acquire vertexBuffer n)
        = Some (3 * n, filled)
    ∧ length filled = 3 * n
    ∧ Forall is_Some filled
    ∧ ∀ i p, getPoints meshFn !! i = Some p →
        filled !! (3 * i) = Some (Some (x p))
        ∧ filled !! (3 * i + 1) = Some (Some (y p))
        ∧ filled !! (3 * i + 2) = Some (Some (z p)).
Proof.
  intros Hdim n.
  assert (Hlen0 : length (acquire (float := float) vertexBuffer n) = 3 * n).
  { rewrite length_acquire, Hdim. lia. }
  destruct (copy_points_spec (getPoints meshFn) n 0 0 (acquire vertexBuffer n))
    as (filled & Hrun & Hlen & _ & Hcells).
  { unfold n, numVertices. lia. }
  { lia. }
  simpl in Hrun.
  assert (Hat : ∀ i p, getPoints meshFn !! i = Some p →
            filled !! (3 * i) = Some (Some (x p))
            ∧ filled !! (3 * i + 1) = Some (Some (y p))
            ∧ filled !! (3 * i + 2) = Some (Some (z p))).
  { intros i p Hp. apply (Hcells i p); [|exact Hp].
    apply lookup_lt_Some in Hp. exact Hp. }
  exists filled. split.
  { unfold createVertexStream. fold n. rewrite Hrun. reflexivity. }
  split; [exact Hrun|]. split; [congruence|]. split; [|exact Hat].
  apply Forall_lookup. intros k c Hk.
  assert (Hkn : k < 3 * n) by (apply lookup_lt_Some in Hk; lia).
  destruct (lookup_lt_is_Some_2 (getPoints meshFn) (k / 3)) as [p Hp].
  { fold (numVertices meshFn). fold n. apply Nat.Div0.div_lt_upper_bound. lia. }
  destruct (Hat _ _ Hp) as (Hx & Hy & Hz).
  pose proof (Nat.div_mod_eq k 3) as Hdm.
  pose proof (Nat.mod_upper_bound k 3 ltac:(lia)) as Hm.
  destruct (k mod 3) as [|[|[|r]]] eqn:Er; [| | |lia].
  - replace k with (3 * (k / 3)) in Hk by lia. rewrite Hx in Hk.
    injection Hk as <-. eexists; reflexivity.
  - replace k with (3 * (k / 3) + 1) in Hk by lia. rewrite Hy in Hk.
    injection Hk as <-. eexists; reflexivity.
  - replace k with (3 * (k / 3) + 2) in Hk by lia. rewrite Hz in Hk.
    injection Hk as <-. eexists; reflexivity.
Qed.

End PositionStream.

Section PositionStreamExample.

Import OsdBufferGenerator Scene.

(** The stream generated for the mesh of two points. *)
Lemma createVertexStream_copies_positions_witness :
  vbd_dimension osdPosition = 3
  ∧ ∃ filled,
      createVertexStream twoPoints osdPosition = Some [Acquire 2; Commit filled]
      ∧ length filled = 6.
Proof.
  split; [reflexivity|].
  destruct (createVertexStream_copies_positions twoPoints osdPosition eq_refl)
    as (filled & Hrun & _ & Hlen & _).
  exists filled. split; [exact Hrun | exact Hlen].
Defined.

End PositionStreamExample.

(** ** Plugin initialisation and shutdown *)

Section PluginLifecycle.

Import Plugin Scene.

(** Case analysis on a build and on the answers of the outside: the
    switches of the build, the result of [initCL] and whether each
    registration succeeded. *)
Ltac plugin_cases b e :=
  destruct b as [apple omp cuda cl]; destruct e as [ok rn rv rs];
  unfold initializePlugin, uninitializePlugin, run, initializePlugin_body,
    uninitializePlugin_body, registerNode, registerVertexBufferGenerator,
    registerShaderOverrideCreator;
  cbn [is_apple has_openmp has_cuda has_opencl initCL_ok registerNode_status
       registerVertexBufferGenerator_status registerShaderOverrideCreator_status];
  destruct apple, omp, cuda, cl, ok;
  destruct (status_ok rn), (status_ok rv), (status_ok rs).

Lemma initializePlugin_live_counts (b : Build) (e : Env) :
  let s := (initializePlugin b e initial).2 in
  (∀ k, live k s = if instantiated b e k then 1 else 0)
  ∧ live_total s
      = 1 + (if has_openmp b then 1 else 0) + (if has_cuda b then 1 else 0)
          + (if has_opencl b && initCL_ok e then 1 else 0)
  ∧ live_total (uninitializePlugin b s).2 = 0.
Proof.
  plugin_cases b e;
    (split; [intros []; vm_compute; reflexivity | split; vm_compute; reflexivity]).
Qed.

(** C2 (amended). From process start, [initializePlugin] leaves one live
    controller object for each backend kind it gets to create and none of
    any other kind: the CPU controller in every build, the OpenMP and CUDA
    controllers when compiled in, the OpenCL controller when compiled in and
    [initCL] succeeded.  Nothing is selected among them, and they are all
    gone after [uninitializePlugin].  When the initialisation is not broken
    off by a failing [initCL], exactly one controller is live if and only if
    the build has none of the optional backends. *)
Theorem initializePlugin_creates_one_controller_per_backend (b : Build) (e : Env) :
  let s := (initializePlugin b e initial).2 in
  (∀ k, live k s = if instantiated b e k then 1 else 0)
  ∧ live_total s
      = 1 + (if has_openmp b then 1 else 0) + (if has_cuda b then 1 else 0)
          + (if has_opencl b && initCL_ok e then 1 else 0)
  ∧ live_total (uninitializePlugin b s).2 = 0
  ∧ (has_opencl b && negb (initCL_ok e) = false →
     (live_total s = 1
      ↔ has_openmp b = false ∧ has_cuda b = false ∧ has_opencl b = false)).
Proof.
  intros s. destruct (initializePlugin_live_counts b e) as (Hkinds & Htotal & Hgone).
  fold s in Hkinds, Htotal, Hgone.
  split; [exact Hkinds|]. split; [exact Htotal|]. split; [exact Hgone|].
  intros Hcl. rewrite Htotal.
  destruct (has_openmp b), (has_cuda b), (has_opencl b), (initCL_ok e);
    try discriminate Hcl; simpl; split;
    try (intros H; exfalso; lia);
    try (intros (H1 & H2 & H3); discriminate);
    try (intros _; repeat split; reflexivity);
    try (intros _; reflexivity).
Qed.

(** C3 (amended). In a build with OpenCL whose [initCL] fails,
    [initializePlugin] reports the error and returns kFailure at once.  No
    other backend is tried in place of OpenCL: the calls end with the two
    error reports, nothing is registered, and this although the CPU
    controller had already been created. *)
Theorem initializePlugin_fails_when_OpenCL_fails (b : Build) (e : Env) :
  has_opencl b = true → initCL_ok e = false →
  let r := initializePlugin b e initial in
  r.1 = kFailure
  ∧ (∃ p, In (OsdCpuComputeController, p) (acquired (log r.2))
          ∧ g_cpuComputeController r.2 = Some p)
  ∧ g_clComputeController r.2 = None
  ∧ registry r.2 = registry initial
  ∧ ∃ before,
      log r.2
        = before ++ [InitCL false; DisplayError "Cannot initialize OpenCL";
                     Perror "OpenCL initialization"].
Proof.
  intros Hcl Hok. plugin_cases b e; try discriminate Hcl; try discriminate Hok;
    (split; [reflexivity|]);
    (split; [exists 1; split; [vm_compute; tauto | reflexivity]|]);
    (split; [reflexivity|]); (split; [reflexivity|]);
    match goal with
    | |- ∃ before, ?l = _ => exists (take (length l - 3) l)
    end;
    vm_compute; reflexivity.
Qed.


End PluginLifecycle.

Section PluginExamples.

Import Plugin Scene.

(** C2, as stated, fails: in a build with OpenMP the initialisation leaves
    two live controller instances, the CPU one and the OpenMP one. *)
Lemma initializePlugin_creates_two_controllers :
  (initializePlugin ompBuild allFine initial).1 = kSuccess
  ∧ live_total (initializePlugin ompBuild allFine initial).2 = 2
  ∧ heap (initializePlugin ompBuild allFine initial).2 !! 1
      = Some OsdCpuComputeController
  ∧ heap (initializePlugin ompBuild allFine initial).2 !! 2
      = Some OsdOmpComputeController.
Proof. repeat split; vm_compute; reflexivity. Qed.

(** The OpenCL-only build with a failing [initCL]. *)
Lemma initializePlugin_fails_when_OpenCL_fails_witness :
  has_opencl clBuild = true ∧ initCL_ok noOpenCL = false
  ∧ (initializePlugin clBuild noOpenCL initial).1 = kFailure.
Proof.
  split; [reflexivity|]. split; [reflexivity|].
  apply (initializePlugin_fails_when_OpenCL_fails clBuild noOpenCL eq_refl eq_refl).
Defined.

(** C3, as stated, fails: the initialisation fails although the CPU
    backend is there, its controller created and live. *)
Lemma initializePlugin_fails_with_cpu_backend_available :
  (initializePlugin clBuild noOpenCL initial).1 = kFailure
  ∧ g_cpuComputeController (initializePlugin clBuild noOpenCL initial).2 = Some 1
  ∧ heap (initializePlugin clBuild noOpenCL initial).2 !! 1
      = Some OsdCpuComputeController.
Proof. repeat split; vm_compute; reflexivity. Qed.

(** C4: the code at the failing input.  After the failed initialisation of
    the OpenCL-only build nothing is registered, but the CPU controller is
    still on the heap, held by its global. *)
Lemma initializePlugin_leaves_controller_after_failure :
  (initializePlugin clBuild noOpenCL initial).1 = kFailure
  ∧ registry (initializePlugin clBuild noOpenCL initial).2 = mkRegistry [] [] []
  ∧ live OsdCpuComputeController (initializePlugin clBuild noOpenCL initial).2 = 1
  ∧ live_total (initializePlugin clBuild noOpenCL initial).2 = 1
  ∧ released (log (initializePlugin clBuild noOpenCL initial).2) = [].
Proof. repeat split; vm_compute; reflexivity. Qed.


End PluginExamples.

(** * Further properties *)

(** ** The callback under repeated and reordered notifications *)

Section NotificationAlgebra.

Import OsdMeshData ShaderOverride Scene.

Lemma land_kAttributeEval (m : Z) :
  Z.land m kAttributeEval = (if Z.testbit m 2 then 4 else 0)%Z.
Proof.
  apply Z.bits_inj'. intros n Hn. rewrite Z.land_spec.
  change kAttributeEval with (2 ^ 2)%Z. rewrite Z.pow2_bits_eqb by lia.
  destruct (Z.eqb_spec 2 n) as [<-|Hne].
  - rewrite andb_true_r. destruct (Z.testbit m 2); reflexivity.
  - rewrite andb_false_r. destruct (Z.testbit m 2).
    + change 4%Z with (2 ^ 2)%Z. rewrite Z.pow2_bits_eqb by lia.
      symmetry. apply Z.eqb_neq. exact Hne.
    + rewrite Z.bits_0. reflexivity.
Qed.

(** X7. Of the whole message mask the callback reads bit 2, the
    kAttributeEval bit, and nothing else: two notifications whose masks
    agree on that bit have the same effect, whatever other kinds are or-ed
    into them. *)
Theorem attrChangedCB_reads_eval_bit_only
    (msg : AttributeMessage) (plug otherPlug : MPlug) (meshData : OsdMeshData.t) :
  has_bit msg kAttributeEval = Z.testbit msg 2
  ∧ ∀ msg' otherPlug',
      Z.testbit msg' 2 = Z.testbit msg 2 →
      attrChangedCB msg' plug otherPlug' meshData
        = attrChangedCB msg plug otherPlug meshData.
Proof.
  assert (Hbit : ∀ m, has_bit m kAttributeEval = Z.testbit m 2).
  { intros m. unfold has_bit. rewrite land_kAttributeEval.
    destruct (Z.testbit m 2); reflexivity. }
  split; [apply Hbit|].
  intros msg' otherPlug' Heq. unfold attrChangedCB. rewrite !Hbit, Heq.
  reflexivity.
Qed.

Lemma notify_cases (n : Notification) (meshData : OsdMeshData.t) :
  notify n meshData = meshData ∨ notify n meshData = setMeshTopoDirty meshData.
Proof.
  unfold notify, attrChangedCB.
  destruct (has_bit _ _); [|left; reflexivity].
  destruct (plug_is _ _); [right | left]; reflexivity.
Qed.

Lemma notify_after_dirty (n : Notification) (meshData : OsdMeshData.t) :
  notify n (setMeshTopoDirty meshData)
    = setMeshTopoDirty (notify n meshData).
Proof.
  unfold notify, attrChangedCB. simpl.
  destruct (has_bit _ _); [|reflexivity].
  destruct (plug_is _ _); reflexivity.
Qed.

(** X6. Notifications never clear the topology-dirty flag, a repeated
    notification changes nothing more, and the order in which two
    notifications arrive does not matter for the state they leave. *)
Theorem notify_monotone_idempotent_commutative
    (n1 n2 : Notification) (meshData : OsdMeshData.t) :
  (topologyDirty meshData = true → topologyDirty (notify n1 meshData) = true)
  ∧ notify n1 (notify n1 meshData) = notify n1 meshData
  ∧ notify n1 (notify n2 meshData) = notify n2 (notify n1 meshData).
Proof.
  split; [|split].
  - intros H. destruct (notify_cases n1 meshData) as [->| ->]; [exact H | reflexivity].
  - destruct (notify_cases n1 meshData) as [H|H].
    + rewrite !H. reflexivity.
    + rewrite H at 1. rewrite notify_after_dirty, H. reflexivity.
  - destruct (notify_cases n2 meshData) as [H2|H2], (notify_cases n1 meshData) as [H1|H1].
    + rewrite H2, H1, H2. reflexivity.
    + rewrite H2, H1, notify_after_dirty, H2. reflexivity.
    + rewrite H2, H1, notify_after_dirty, H1, H2. reflexivity.
    + rewrite H2, H1, !notify_after_dirty, H1, H2. reflexivity.
Qed.

End NotificationAlgebra.

(** ** The whole life of an override *)

Section OverrideLife.

Import OsdMeshData ShaderOverride Scene.

Lemma owns_updateDG object ov w : owns ov w → owns (updateDG object ov) w.
Proof. intros [? ? ? ?]. destruct object; split; assumption. Qed.

Lemma life_keeps steps : ∀ ov w,
  owns ov w →
  owns (life steps ov w).1 (life steps ov w).2
  ∧ foldr delete (callbacks (life steps ov w).2) (_callbackIds (life steps ov w).1)
      = foldr delete (callbacks w) (_callbackIds ov).
Proof.
  induction steps as [|[c|object] rest IH]; intros ov w Hown; simpl.
  - split; [exact Hown | reflexivity].
  - destruct (initialize c ov w) as [[[name data] ov1] w1] eqn:E.
    destruct (initialize_step _ _ _ _ _ _ _ Hown E) as (Hown1 & Hdel1 & _).
    destruct (IH ov1 w1 Hown1) as (Hown' & Hdel').
    split; [exact Hown' | congruence].
  - destruct (IH (updateDG object ov) w (owns_updateDG object ov w Hown))
      as (Hown' & Hdel').
    split; [exact Hown'|]. rewrite Hdel'. destruct object; reflexivity.
Qed.

(** X10. Calls of [updateDG] may come between the calls of [initialize] in
    any order: the destructor still leaves Maya's callback table exactly as
    it was before the override was created. *)
Theorem destructor_restores_table_after_any_life
    (obj : nat) (steps : list LifeStep) (w : World) :
  ids_issued w →
  callbacks (destructor (life steps (creator obj) w).1 (life steps (creator obj) w).2)
    = callbacks w.
Proof.
  intros Hiss.
  assert (Hown : owns (creator obj) w).
  { split; simpl; [exact Hiss | constructor | constructor | constructor]. }
  destruct (life_keeps steps (creator obj) w Hown) as (_ & Hdel). exact Hdel.
Qed.

Lemma initialize_effects c ov w :
  let r := initialize c ov w in
  r.1.1.1 = "OpenSubdivShaderOverride"
  ∧ requirements r.1.2
      = requirements ov
          ++ [mkDescriptor EmptyString kPosition EmptyString kFloat 3; osdPosition]
  ∧ _shader r.1.2 = _shader ov
  ∧ cerr r.2
      = cerr w ++ (if ic_accept c then [] else ["MNodeMessage.addCallback failed"]).
Proof.
  unfold initialize. destruct (ic_customData c), (ic_accept c); simpl;
    rewrite <- ?app_assoc, ?app_nil_r; auto.
Qed.

Lemma lifetime_effects calls : ∀ ov w,
  requirements (lifetime calls ov w).1
    = requirements ov
        ++ concat (replicate (length calls)
             [mkDescriptor EmptyString kPosition EmptyString kFloat 3; osdPosition])
  ∧ cerr (lifetime calls ov w).2
      = cerr w ++ replicate (refused calls) "MNodeMessage.addCallback failed".
Proof.
  induction calls as [|c rest IH]; intros ov w; simpl.
  - rewrite !app_nil_r. split; reflexivity.
  - destruct (initialize_effects c ov w) as (_ & Hreq & _ & Herr).
    destruct (initialize c ov w) as [[[name data] ov1] w1]. simpl in Hreq, Herr.
    destruct (IH ov1 w1) as (-> & ->). rewrite Hreq, Herr, <- !app_assoc.
    split; [reflexivity|]. f_equal. unfold refused. rewrite filter_cons.
    destruct (ic_accept c); case_decide; simpl; (discriminate || congruence || reflexivity).
Qed.

(** X16. Each registration Maya refuses writes one line
    "MNodeMessage.addCallback failed" to cerr and each accepted one writes
    nothing: over any sequence of [initialize] calls cerr grows by exactly
    one such line per refusal. *)
Theorem lifetime_reports_each_refusal
    (calls : list InitCall) (ov : ShaderOverride.t) (w : World) :
  cerr (lifetime calls ov w).2
    = cerr w ++ replicate (refused calls) "MNodeMessage.addCallback failed"
  ∧ refused calls + accepted calls = length calls.
Proof.
  split; [apply lifetime_effects|].
  unfold refused, accepted. induction calls as [|c rest IH]; [reflexivity|].
  rewrite !filter_cons. destruct (ic_accept c); repeat case_decide; simpl in *;
    (discriminate || congruence || lia).
Qed.

End OverrideLife.

(** ** From [initialize] to the callback *)

Section Wiring.

Import OsdMeshData ShaderOverride Scene.


End Wiring.

Section WiringExample.

Import OsdMeshData ShaderOverride Scene.


(** Two [initialize] calls with an [updateDG] in between. *)
Lemma destructor_restores_table_after_any_life_witness :
  ids_issued emptyWorld
  ∧ callbacks
      (destructor
         (life [DoInitialize (mkInitCall meshPath None true);
                DoUpdateDG (Some (Some 5));
                DoInitialize (mkInitCall meshPath (Some 1) true)]
            (creator 0) emptyWorld).1
         (life [DoInitialize (mkInitCall meshPath None true);
                DoUpdateDG (Some (Some 5));
                DoInitialize (mkInitCall meshPath (Some 1) true)]
            (creator 0) emptyWorld).2)
    = callbacks emptyWorld.
Proof.
  assert (H : ids_issued emptyWorld).
  { intros id sub. simpl. rewrite lookup_empty. discriminate. }
  split; [exact H|].
  apply (destructor_restores_table_after_any_life 0
           [DoInitialize (mkInitCall meshPath None true);
            DoUpdateDG (Some (Some 5));
            DoInitialize (mkInitCall meshPath (Some 1) true)]
           emptyWorld H).
Defined.

End WiringExample.

(** ** The position stream beyond three floats per vertex *)

Section StreamBounds.

Import OsdBufferGenerator ShaderOverride Scene.

Context {float : Type}.

Implicit Types (points : list (MFloatPoint float)) (buffer : list (option float)).

Lemma store_outside dst (v : float) buffer :
  ¬ dst < length buffer → store dst v buffer = None.
Proof. intros H. unfold store. rewrite decide_False by exact H. reflexivity. Qed.

(** When the writes of the remaining vertices do not fit, one of them falls
    outside the memory. *)
Lemma copy_points_overflow points : ∀ count i dst buffer,
  i + count ≤ length points →
  dst ≤ length buffer →
  length buffer < dst + 3 * count →
  copy_points points count i dst buffer = None.
Proof.
  induction count as [|count IH]; intros i dst buffer Hpts Hdst Hover; [lia|].
  destruct (lookup_lt_is_Some_2 points i) as [p Hp]; [lia|].
  cbn [copy_points]. rewrite Hp. cbn [mbind option_bind].
  destruct (decide (dst + 2 < length buffer)) as [Hfit|Hfit].
  - destruct (store_vertex dst p buffer Hfit) as (b3 & Hst & Hlen3 & _).
    cbn [mbind option_bind] in Hst.
    destruct (store dst (x p) buffer) as [b1|]; [|discriminate].
    cbn [mbind option_bind] in Hst |- *.
    destruct (store (dst + 1) (y p) b1) as [b2|]; [|discriminate].
    cbn [mbind option_bind] in Hst |- *.
    rewrite Hst. cbn [mbind option_bind]. apply IH; lia.
  - destruct (decide (dst < length buffer)) as [H0|H0];
      [|rewrite store_outside by exact H0; reflexivity].
    rewrite store_inside by exact H0. cbn [mbind option_bind].
    destruct (decide (dst + 1 < length buffer)) as [H1|H1];
      [|rewrite store_outside by (rewrite length_insert; exact H1); reflexivity].
    rewrite store_inside by (rewrite length_insert; exact H1).
    cbn [mbind option_bind].
    rewrite store_outside by (rewrite !length_insert; exact Hfit). reflexivity.
Qed.

Lemma createVertexStream_wide (meshFn : MFnMesh float) (d : MVertexBufferDescriptor) :
  3 ≤ vbd_dimension d →
  ∃ filled,
    createVertexStream meshFn d = Some [Acquire (numVertices meshFn); Commit filled]
    ∧ length filled = numVertices meshFn * vbd_dimension d
    ∧ (∀ i p, getPoints meshFn !! i = Some p →
         filled !! (3 * i) = Some (Some (x p))
         ∧ filled !! (3 * i + 1) = Some (Some (y p))
         ∧ filled !! (3 * i + 2) = Some (Some (z p)))
    ∧ ∀ k, 3 * numVertices meshFn ≤ k < numVertices meshFn * vbd_dimension d →
        filled !! k = Some None.
Proof.
  intros Hdim. set (n := numVertices meshFn).
  assert (Hlen0 : length (acquire (float := float) d n) = n * vbd_dimension d)
    by apply length_acquire.
  destruct (copy_points_spec (getPoints meshFn) n 0 0 (acquire d n))
    as (filled & Hrun & Hlen & Hframe & Hcells).
  { unfold n, numVertices. lia. }
  { nia. }
  simpl in Hrun. exists filled. split.
  { unfold createVertexStream. fold n. rewrite Hrun. reflexivity. }
  split; [congruence|]. split.
  - intros i p Hp. apply (Hcells i p); [|exact Hp].
    apply lookup_lt_Some in Hp. exact Hp.
  - intros k [Hlo Hhi]. rewrite Hframe by (right; simpl; lia).
    unfold acquire. apply lookup_replicate_2. exact Hhi.
Qed.

(** X11. The generator writes three floats per vertex whatever the
    descriptor says.  It runs to its commit exactly when the mesh is empty
    or the buffer has at least three floats per vertex; with fewer, the
    copy of a non-empty mesh writes past the acquired memory. *)
Theorem createVertexStream_defined_iff
    (meshFn : MFnMesh float) (d : MVertexBufferDescriptor) :
  is_Some (createVertexStream meshFn d)
  ↔ numVertices meshFn = 0 ∨ 3 ≤ vbd_dimension d.
Proof.
  split.
  - intros [calls Hrun].
    destruct (decide (numVertices meshFn = 0)) as [|Hn]; [left; assumption|].
    destruct (decide (3 ≤ vbd_dimension d)) as [|Hd]; [right; assumption|].
    exfalso. unfold createVertexStream in Hrun.
    rewrite copy_points_overflow in Hrun; [discriminate | | |].
    + unfold numVertices. lia.
    + lia.
    + rewrite length_acquire. nia.
  - intros [Hn | Hd].
    + unfold createVertexStream. rewrite Hn. simpl. eexists; reflexivity.
    + destruct (createVertexStream_wide meshFn d Hd) as (filled & -> & _).
      eexists; reflexivity.
Qed.

(** X12. With more than three floats per vertex the generator still packs
    the positions with stride three: point i goes to cells 3 i .. 3 i + 2,
    and the cells from 3 n on are committed unwritten. *)
Theorem createVertexStream_packs_with_stride_three
    (meshFn : MFnMesh float) (d : MVertexBufferDescriptor) :
  3 ≤ vbd_dimension d →
  ∃ filled,
    createVertexStream meshFn d = Some [Acquire (numVertices meshFn); Commit filled]
    ∧ length filled = numVertices meshFn * vbd_dimension d
    ∧ (∀ i p, getPoints meshFn !! i = Some p →
         filled !! (3 * i) = Some (Some (x p))
         ∧ filled !! (3 * i + 1) = Some (Some (y p))
         ∧ filled !! (3 * i + 2) = Some (Some (z p)))
    ∧ ∀ k, 3 * numVertices meshFn ≤ k < numVertices meshFn * vbd_dimension d →
        filled !! k = Some None.
Proof. apply createVertexStream_wide. Qed.

Lemma elem_of_repeated {A} (l : list A) (n : nat) (a : A) :
  a ∈ concat (replicate n l) → a ∈ l.
Proof.
  induction n as [|n IH]; simpl; [intros H; inversion H|].
  rewrite elem_of_app. intros [H|H]; [exact H | exact (IH H)].
Qed.

(** X9. Every [initialize] call declares the same two geometry
    requirements, a position stream and the osdPosition stream, both of
    three floats; so for every requirement an override ever holds the
    generator runs to its commit on any mesh. *)
Theorem requirements_fit_the_generator
    (obj : nat) (calls : list InitCall) (w : World) :
  let ov := (lifetime calls (creator obj) w).1 in
  length (requirements ov) = 2 * length calls
  ∧ ∀ d, d ∈ requirements ov →
      vbd_dimension d = 3 ∧ vbd_dataType d = kFloat
      ∧ ∀ meshFn : MFnMesh float, is_Some (createVertexStream meshFn d).
Proof.
  intros ov. destruct (lifetime_effects calls (creator obj) w) as (Hreq & _).
  fold ov in Hreq. simpl in Hreq. split.
  - rewrite Hreq. clear Hreq. induction calls as [|c rest IH]; [reflexivity|].
    simpl in *. rewrite IH. lia.
  - intros d Hd. rewrite Hreq in Hd. apply elem_of_repeated in Hd.
    assert (Hdim : vbd_dimension d = 3 ∧ vbd_dataType d = kFloat).
    { apply elem_of_cons in Hd as [-> | Hd]; [split; reflexivity|].
      apply list_elem_of_singleton in Hd as ->. split; reflexivity. }
    destruct Hdim as [Hdim Hty]. split; [exact Hdim|]. split; [exact Hty|].
    intros meshFn.
    destruct (createVertexStream_wide meshFn d) as (filled & -> & _); [lia|].
    eexists; reflexivity.
Qed.

End StreamBounds.

Section StreamBoundsExample.

Import OsdBufferGenerator Scene.

(** The mesh of two points in a buffer of four floats per vertex. *)
Lemma createVertexStream_packs_with_stride_three_witness :
  ∃ filled,
    createVertexStream twoPoints
      (mkDescriptor "osdPosition" kTangent "osdPosition" kFloat 4)
      = Some [Acquire 2; Commit filled]
    ∧ length filled = 8.
Proof.
  destruct (createVertexStream_packs_with_stride_three twoPoints
              (mkDescriptor "osdPosition" kTangent "osdPosition" kFloat 4))
    as (filled & Hrun & Hlen & _).
  { simpl. lia. }
  exists filled. split; [exact Hrun | exact Hlen].
Defined.

End StreamBoundsExample.

(** ** More on [draw] *)

Section DrawDetails.

Import ShaderOverride Draw Scene.

Lemma find_position_from (buffers : list MVertexBuffer) : ∀ acc,
  fold_left
    (fun position vb =>
       if String.eqb (vbd_name (descriptor vb)) "osdPosition" then Some vb
       else position)
    buffers acc
  = match last (filter is_osdPosition buffers) with
    | Some vb => Some vb
    | None => acc
    end.
Proof.
  induction buffers as [|vb rest IH]; intros acc; [reflexivity|].
  cbn [fold_left]. rewrite IH, filter_cons.
  destruct (String.eqb (vbd_name (descriptor vb)) "osdPosition") eqn:E.
  - rewrite decide_True by (unfold is_osdPosition; rewrite E; exact I).
    rewrite last_cons.
    destruct (last (filter is_osdPosition rest)); reflexivity.
  - rewrite decide_False by (unfold is_osdPosition; rewrite E; intros []).
    reflexivity.
Qed.

(** X3. The position handed to updateGeometry is the last vertex buffer of
    the geometry whose descriptor is named "osdPosition": later buffers of
    that name shadow earlier ones, and the position is NULL exactly when no
    buffer has the name. *)
Theorem find_position_is_last_osdPosition (buffers : list MVertexBuffer) :
  find_position buffers = last (filter is_osdPosition buffers)
  ∧ (find_position buffers = None
     ↔ ∀ vb, vb ∈ buffers → vbd_name (descriptor vb) ≠ "osdPosition")
  ∧ ∀ vb, find_position buffers = Some vb →
      vb ∈ buffers ∧ vbd_name (descriptor vb) = "osdPosition".
Proof.
  assert (Heq : find_position buffers = last (filter is_osdPosition buffers)).
  { unfold find_position. rewrite find_position_from.
    destruct (last (filter is_osdPosition buffers)); reflexivity. }
  assert (Hname : ∀ vb, is_osdPosition vb ↔ vbd_name (descriptor vb) = "osdPosition").
  { intros vb. unfold is_osdPosition. rewrite Is_true_true. apply String.eqb_eq. }
  split; [exact Heq|]. rewrite Heq. split.
  - rewrite last_None. split.
    + intros Hnil vb Hin Hn.
      assert (Hf : vb ∈ filter is_osdPosition buffers).
      { apply list_elem_of_filter. split; [apply Hname, Hn | exact Hin]. }
      rewrite Hnil in Hf. inversion Hf.
    + intros Hnone. destruct (filter is_osdPosition buffers) as [|vb l] eqn:E;
        [reflexivity|].
      assert (Hf : vb ∈ filter is_osdPosition buffers) by (rewrite E; left).
      apply list_elem_of_filter in Hf as [Hp Hin].
      exfalso. apply (Hnone vb Hin). apply Hname, Hp.
  - intros vb Hlast.
    assert (Hf : vb ∈ filter is_osdPosition buffers).
    { apply last_Some in Hlast as [l' ->]. apply elem_of_app. right. left. }
    apply list_elem_of_filter in Hf as [Hp Hin].
    split; [exact Hin | apply Hname, Hp].
Qed.

(** X4. The two state objects are acquired once per process: after a
    request in which both acquisitions gave an object, every later request,
    also one with another draw context, acquires nothing and sets the
    objects kept in the statics. *)
Theorem setup_state_acquires_once
    (context context2 : MDrawContext) (st : Statics) :
  is_Some (acquireDepthStencilState context) →
  is_Some (acquireBlendState context) →
  let st1 := (setup_state context st).1 in
  is_Some (depthState st1) ∧ is_Some (blendState st1)
  ∧ setup_state context2 st1
      = (st1, [SetDepthStencilState (depthState st1); SetBlendState (blendState st1)]).
Proof.
  intros [d Hd] [b Hb]. unfold setup_state. rewrite Hd, Hb.
  destruct st as [[d0|] [b0|]]; simpl; repeat split; eexists; reflexivity.
Qed.

Lemma draw_items_all_stages shader items :
  stage_calls (draw_items shader items).2 = (draw_items shader items).2.
Proof.
  induction items as [|it rest IH]; [reflexivity|].
  cbn [draw_items]. destruct (customData it) as [data|]; [|reflexivity].
  destruct shader as [sh|]; [|reflexivity].
  destruct (draw_items (Some sh) rest) as [r log]. simpl in *.
  unfold stage_calls in *.
  rewrite !filter_cons_True by exact I.
  do 4 f_equal. exact IH.
Qed.

Lemma draw_items_refines_before_drawing shader items : ∀ l1 sh d l2,
  (draw_items shader items).2 = l1 ++ ShaderDraw sh d :: l2 →
  shader = Some sh
  ∧ ∃ l0 position,
      l1 = l0 ++ [RebuildHbrMeshIfNeeded d (Some sh); Prepare d;
                  UpdateGeometry d position].
Proof.
  induction items as [|it rest IH]; intros l1 sh d l2.
  - simpl. intros H. destruct l1; discriminate H.
  - cbn [draw_items]. destruct (customData it) as [data|].
    2:{ simpl. intros H. destruct l1; discriminate H. }
    destruct shader as [s|].
    2:{ simpl. intros H. destruct l1 as [|a [|b [|c [|e l1]]]]; discriminate H. }
    destruct (draw_items (Some s) rest) as [r log] eqn:E. simpl in IH |- *.
    intros H. destruct l1 as [|a [|b [|c [|e l1]]]]; try discriminate H.
    + inversion H; subst. split; [reflexivity|].
      exists [], (find_position (geometry it)). reflexivity.
    + assert (Hrest : log = l1 ++ ShaderDraw sh d :: l2)
        by (inversion H; reflexivity).
      assert (Hhead : [a; b; c; e]
                      = [RebuildHbrMeshIfNeeded data (Some s); Prepare data;
                         UpdateGeometry data (find_position (geometry it));
                         ShaderDraw s data])
        by (inversion H; reflexivity).
      injection Hhead as -> -> -> ->.
      destruct (IH _ _ _ _ Hrest) as (Hs & l0 & pos & ->).
      split; [exact Hs|].
      exists (RebuildHbrMeshIfNeeded data (Some s) :: Prepare data
              :: UpdateGeometry data (find_position (geometry it))
              :: ShaderDraw s data :: l0), pos.
      reflexivity.
Qed.

(** X5. [draw] never hands mesh data to the shader's draw without having
    run the three preparing stages on the same data directly before:
    wherever a shader draw stands among the stage calls of a request, the
    calls rebuildHbrMeshIfNeeded, prepare and updateGeometry for that data
    stand immediately in front of it, and the shader is the saved one. *)
Theorem draw_refines_before_drawing
    (ov : ShaderOverride.t) (context : MDrawContext) (items : list MRenderItem)
    (st : Statics) (l1 l2 : list Call) (sh d : nat) :
  stage_calls (draw ov context items st).2 = l1 ++ ShaderDraw sh d :: l2 →
  _shader ov = Some sh
  ∧ ∃ l0 position,
      l1 = l0 ++ [RebuildHbrMeshIfNeeded d (Some sh); Prepare d;
                  UpdateGeometry d position].
Proof.
  unfold draw. pose proof (setup_state_no_stage context st) as Hsetup.
  destruct (setup_state context st) as [st' l0]. simpl in Hsetup.
  pose proof (draw_items_all_stages (_shader ov) items) as Hall.
  destruct (draw_items (_shader ov) items) as [r l] eqn:E. simpl in *.
  unfold stage_calls in *. rewrite filter_app, Hsetup, Hall. simpl.
  intros H. apply (draw_items_refines_before_drawing (_shader ov) items l1 sh d l2).
  rewrite E. exact H.
Qed.

End DrawDetails.

Section DrawDetailsExamples.

Import ShaderOverride Draw Scene.

(** The sample context on fresh statics. *)
Lemma setup_state_acquires_once_witness :
  setup_state someContext (setup_state someContext (mkStatics None None)).1
  = (mkStatics (Some 1) (Some 2),
     [SetDepthStencilState (Some 1); SetBlendState (Some 2)]).
Proof.
  apply (setup_state_acquires_once someContext someContext (mkStatics None None));
    eexists; reflexivity.
Defined.

(** The draw of the ready item. *)
Lemma draw_refines_before_drawing_witness :
  _shader boundOverride = Some 5.
Proof.
  apply (draw_refines_before_drawing boundOverride someContext [readyItem]
           (mkStatics None None)
           [RebuildHbrMeshIfNeeded 7 (Some 5); Prepare 7;
            UpdateGeometry 7 (find_position (geometry readyItem))]
           [] 5 7).
  reflexivity.
Defined.

End DrawDetailsExamples.

(** ** The source indexing of the generator *)

Section SourceIndexing.

Import OsdBufferGenerator Scene.

Lemma append_indices_spec (vl : list Z) : ∀ count i vertices,
  i + count ≤ length vl →
  append_indices vl count i vertices
    = Some (vertices ++ map to_unsigned (take count (drop i vl))).
Proof.
  induction count as [|count IH]; intros i vertices Hlen.
  - simpl. rewrite app_nil_r. reflexivity.
  - destruct (lookup_lt_is_Some_2 vl i) as [v Hv]; [lia|].
    cbn [append_indices]. rewrite Hv. cbn [mbind option_bind].
    rewrite IH by lia. f_equal. rewrite <- app_assoc. f_equal.
    rewrite (drop_S vl v i Hv). reflexivity.
Qed.

Lemma to_unsigned_small (v : Z) : (0 ≤ v < 2 ^ 31)%Z → to_unsigned v = v.
Proof. intros H. unfold to_unsigned. apply Z.mod_small. lia. Qed.

(** X1. [getSourceIndexing] always succeeds with true.  It appends the
    whole face-vertex list of the mesh, each id cast to unsigned, behind the
    indices already present, in order; the per-face counts are not used.
    Every index appended is a 32-bit unsigned value. *)
Theorem getSourceIndexing_appends_face_vertices
    (mesh : MeshVertices) (sourceIndexing : MComponentDataIndexing) :
  getSourceIndexing mesh sourceIndexing
    = Some (true,
            mkIndexing
              (indices sourceIndexing ++ map to_unsigned (vertexList mesh))
              kFaceVertex)
  ∧ Forall (fun u => (0 ≤ u < 2 ^ 32)%Z) (map to_unsigned (vertexList mesh))
  ∧ ∀ counts,
      getSourceIndexing (mkMeshVertices counts (vertexList mesh)) sourceIndexing
        = getSourceIndexing mesh sourceIndexing.
Proof.
  assert (Hrun : ∀ counts,
            getSourceIndexing (mkMeshVertices counts (vertexList mesh)) sourceIndexing
              = Some (true,
                      mkIndexing
                        (indices sourceIndexing ++ map to_unsigned (vertexList mesh))
                        kFaceVertex)).
  { intros counts. unfold getSourceIndexing. cbn [vertexList].
    rewrite append_indices_spec by (simpl; lia).
    rewrite drop_0, firstn_all. reflexivity. }
  split; [|split].
  - destruct mesh as [counts vl]. apply Hrun.
  - apply Forall_forall. intros u Hu. apply list_elem_of_fmap in Hu as (v & -> & _).
    unfold to_unsigned. apply Z.mod_pos_bound. lia.
  - intros counts. rewrite Hrun. destruct mesh as [counts' vl]. symmetry. apply Hrun.
Qed.

(** X2. For a mesh whose vertex ids are non-negative ints, the indices
    appended are the vertex ids themselves: the cast to unsigned changes
    nothing. *)
Theorem getSourceIndexing_keeps_vertex_ids
    (mesh : MeshVertices) (sourceIndexing : MComponentDataIndexing) :
  Forall (fun v => (0 ≤ v < 2 ^ 31)%Z) (vertexList mesh) →
  getSourceIndexing mesh sourceIndexing
    = Some (true,
            mkIndexing (indices sourceIndexing ++ vertexList mesh) kFaceVertex).
Proof.
  intros Hids.
  assert (Hmap : map to_unsigned (vertexList mesh) = vertexList mesh).
  { induction Hids as [|v l Hv _ IH]; [reflexivity|].
    simpl. rewrite (to_unsigned_small v Hv), IH. reflexivity. }
  unfold getSourceIndexing.
  rewrite append_indices_spec by (simpl; lia).
  rewrite drop_0, firstn_all, Hmap. reflexivity.
Qed.

End SourceIndexing.

Section SourceIndexingExample.

Import OsdBufferGenerator Scene.

(** The cube, into an empty indexing. *)
Lemma getSourceIndexing_keeps_vertex_ids_witness :
  getSourceIndexing cubeVertices (mkIndexing [] kFaceVertex)
  = Some (true, mkIndexing (vertexList cubeVertices) kFaceVertex).
Proof.
  apply (getSourceIndexing_keeps_vertex_ids cubeVertices (mkIndexing [] kFaceVertex)).
  unfold cubeVertices. simpl. repeat constructor; lia.
Defined.

End SourceIndexingExample.

(** ** More on plugin initialisation and shutdown *)

Section PluginDetails.

Import Plugin Scene.

Ltac split_build_env b e :=
  destruct b as [apple omp cuda cl]; destruct e as [ok rn rv rs];
  unfold initializePlugin, uninitializePlugin, run, initializePlugin_body,
    uninitializePlugin_body, registerNode, registerVertexBufferGenerator,
    registerShaderOverrideCreator;
  cbn [is_apple has_openmp has_cuda has_opencl initCL_ok registerNode_status
       registerVertexBufferGenerator_status registerShaderOverrideCreator_status];
  destruct apple, omp, cuda, cl, ok;
  destruct (status_ok rn) eqn:Hrn, (status_ok rv) eqn:Hrv, (status_ok rs) eqn:Hrs.

(** X13. Unless the OpenCL initialisation fails, the status
    [initializePlugin] returns is the status of the shader-override
    registration alone: the status of the node registration is overwritten
    and that of the generator registration is never looked at, so a failure
    of either goes unreported.  Each of the three registrations is in effect
    afterwards exactly when Maya reported success for it. *)
Theorem initializePlugin_reports_last_registration_only
    (b : Build) (e : Env) (s : State) :
  has_opencl b && negb (initCL_ok e) = false →
  let r := initializePlugin b e s in
  r.1 = registerShaderOverrideCreator_status e
  ∧ nodes (registry r.2)
      = (if status_ok (registerNode_status e)
         then nodes (registry s) ++ ["openSubdivShader"]
         else nodes (registry s))
  ∧ vertexBufferGenerators (registry r.2)
      = (if status_ok (registerVertexBufferGenerator_status e)
         then vertexBufferGenerators (registry s) ++ ["osdPosition"]
         else vertexBufferGenerators (registry s))
  ∧ shaderOverrideCreators (registry r.2)
      = (if status_ok (registerShaderOverrideCreator_status e)
         then shaderOverrideCreators (registry s)
                ++ ["drawdb/shader/surface/OpenSubdivShader"]
         else shaderOverrideCreators (registry s)).
Proof.
  intros Hcl. split_build_env b e; try discriminate Hcl;
    repeat split; reflexivity.
Qed.

Lemma heap_fresh (s : State) (p : nat) :
  heap_allocated s → next_ptr s ≤ p → heap s !! p = None.
Proof.
  intros Hwf Hp. destruct (heap s !! p) as [k|] eqn:E; [|reflexivity].
  apply Hwf in E. lia.
Qed.

(** X15. [initializePlugin] never frees or overwrites a controller object
    that is already on the heap: whatever state it starts from, every object
    stays where it is and the new controllers are added on fresh addresses.
    Called again without [uninitializePlugin] in between, it therefore
    leaves the earlier controllers allocated. *)
Theorem initializePlugin_keeps_existing_controllers
    (b : Build) (e : Env) (s : State) :
  heap_allocated s →
  let s' := (initializePlugin b e s).2 in
  (∀ p k, heap s !! p = Some k → heap s' !! p = Some k)
  ∧ size (heap s') = size (heap s) + created b e
  ∧ heap_allocated s'.
Proof.
  intros Hwf. unfold created.
  assert (Hfresh : ∀ p, next_ptr s ≤ p → heap s !! p = None)
    by (intros p; apply heap_fresh; exact Hwf).
  unfold heap_allocated in *.
  destruct s as [g1 g2 g3 g4 c q h n rg lg]. cbn [heap next_ptr] in Hwf, Hfresh.
  split_build_env b e;
    cbv [bind ret when call new create set_global initCL exit set_registry
         negb heap next_ptr snd g_cpuComputeController g_ompComputeController
         g_cudaComputeController g_clComputeController g_clContext g_clQueue
         registry log andb];
    (split;
     [ intros p k Hp; pose proof (Hwf p k Hp);
       rewrite ?lookup_insert_ne by lia; exact Hp
     | split;
       [ rewrite ?map_size_insert_None
           by (rewrite ?lookup_insert_ne by lia; apply Hfresh; lia);
         lia
       | intros p k; rewrite ?lookup_insert; repeat case_decide; subst;
         try (intros _; lia); intros Hp; pose proof (Hwf p k Hp); lia ] ]).
Qed.

Lemma without_spec (name : string) (l : list string) (n : string) :
  n ∈ without name l ↔ n ≠ name ∧ n ∈ l.
Proof. unfold without. rewrite list_elem_of_filter. reflexivity. Qed.

Ltac resolve_deletes :=
  repeat match goal with
  | |- context [match ?m !! ?p with Some _ => _ | None => _ end] =>
      let H := fresh "Hl" in
      assert (H : is_Some (m !! p))
        by (rewrite ?lookup_delete_ne by congruence; assumption);
      destruct H as [? ->]
  end.

(** X14. From a state in which each global of a compiled-in kind is null or
    points to a live object of its own, [uninitializePlugin] answers
    kSuccess.  It takes the node, the generator and the override creator out
    of the registry and keeps every other registration; after the three
    deregistrations it deletes the objects the globals point to, in the
    order CPU, OpenMP, CUDA, OpenCL, and no other object; and it does not
    reset the globals. *)
Theorem uninitializePlugin_always_succeeds (b : Build) (s : State) :
  globals_sound b s →
  let r := uninitializePlugin b s in
  r.1 = kSuccess
  ∧ (∀ n, n ∈ nodes (registry r.2)
          ↔ n ≠ "openSubdivShader" ∧ n ∈ nodes (registry s))
  ∧ (∀ n, n ∈ vertexBufferGenerators (registry r.2)
          ↔ n ≠ "osdPosition" ∧ n ∈ vertexBufferGenerators (registry s))
  ∧ (∀ n, n ∈ shaderOverrideCreators (registry r.2)
          ↔ n ≠ "drawdb/shader/surface/OpenSubdivShader"
            ∧ n ∈ shaderOverrideCreators (registry s))
  ∧ (∀ k, global_of k r.2 = global_of k s)
  ∧ log r.2
      = log s
          ++ [DeregisterNode "openSubdivShader";
              DeregisterVertexBufferGenerator "osdPosition";
              DeregisterShaderOverrideCreator "drawdb/shader/surface/OpenSubdivShader"]
          ++ map (fun kp => Delete kp.1 kp.2) (held b s)
  ∧ ∀ p, heap r.2 !! p
         = if decide (p ∈ (held b s).*2) then None else heap s !! p.
Proof.
  destruct s as [g1 g2 g3 g4 c q h n [ns vs ss] lg].
  destruct b as [apple omp cuda cl].
  intros [Hnd Hlive].
  unfold held, global_of, compiled_in in Hnd, Hlive |- *.
  unfold uninitializePlugin, run, uninitializePlugin_body, deregisterNode,
    deregisterVertexBufferGenerator, deregisterShaderOverrideCreator.
  cbn [has_openmp has_cuda has_opencl] in Hnd, Hlive |- *.
  destruct omp, cuda, cl, g1 as [p1|], g2 as [p2|], g3 as [p3|], g4 as [p4|];
    cbn in Hnd, Hlive;
    match type of Hlive with
    | ∀ k p, (k, p) ∈ ?l → _ =>
        assert (Hl : Forall (fun kp : Controller * nat => is_Some (h !! kp.2)) l)
          by (apply Forall_forall; intros [k p] Hin; exact (Hlive k p Hin))
    end;
    repeat (apply Forall_cons in Hl as [? Hl]); cbn [snd] in *;
    repeat (apply NoDup_cons in Hnd as [? Hnd]);
    repeat match goal with
    | H : _ ∉ _ :: _ |- _ => apply not_elem_of_cons in H as [? ?]
    end;
    cbv [bind ret when call get delete_controller set_registry
         heap next_ptr fst snd g_cpuComputeController g_ompComputeController
         g_cudaComputeController g_clComputeController g_clContext g_clQueue
         registry log nodes vertexBufferGenerators shaderOverrideCreators];
    resolve_deletes;
    (split; [reflexivity|]);
    (split; [intros; apply without_spec|]);
    (split; [intros; apply without_spec|]);
    (split; [intros; apply without_spec|]);
    (split; [intros []; reflexivity|]);
    (split; [cbn; rewrite <- ?app_assoc; reflexivity|]);
    intros p; cbn; rewrite ?lookup_delete; repeat case_decide;
    try reflexivity; exfalso;
    repeat match goal with
    | H : _ ∈ _ :: _ |- _ => apply elem_of_cons in H as [?|?]
    | H : _ ∈ [] |- _ => apply elem_of_nil in H
    | H : _ ∉ _ :: _ |- _ => apply not_elem_of_cons in H as [? ?]
    end;
    congruence.
Qed.

(** X17. Initialisation followed by shutdown, from process start: whatever
    the build and whatever Maya answered, the registry and the heap are
    again as at process start, with nothing registered and no controller
    object left, while the CPU global is not back at zero. *)
Theorem uninitializePlugin_undoes_initializePlugin (b : Build) (e : Env) :
  let s := (uninitializePlugin b (initializePlugin b e initial).2).2 in
  registry s = registry initial
  ∧ heap s = heap initial
  ∧ is_Some (g_cpuComputeController s).
Proof.
  split_build_env b e; vm_compute; repeat split; eexists; reflexivity.
Qed.

End PluginDetails.

Section PluginDetailsExamples.

Import Plugin Scene.

(** The full build when Maya refuses the node registration: the answer is
    still kSuccess. *)
Lemma initializePlugin_reports_last_registration_only_witness :
  (initializePlugin fullBuild (mkEnv true kFailure kSuccess kSuccess) initial).1
  = kSuccess.
Proof.
  apply (initializePlugin_reports_last_registration_only fullBuild
           (mkEnv true kFailure kSuccess kSuccess) initial).
  reflexivity.
Defined.

(** The OpenMP build initialised a second time. *)
Lemma initializePlugin_keeps_existing_controllers_witness :
  heap_allocated (initializePlugin ompBuild allFine initial).2
  ∧ size (heap (initializePlugin ompBuild allFine
                  (initializePlugin ompBuild allFine initial).2).2)
    = size (heap (initializePlugin ompBuild allFine initial).2)
      + created ompBuild allFine.
Proof.
  assert (H0 : heap_allocated initial).
  { intros p k. simpl. rewrite lookup_empty. discriminate. }
  assert (H : heap_allocated (initializePlugin ompBuild allFine initial).2)
    by apply (initializePlugin_keeps_existing_controllers ompBuild allFine initial H0).
  split; [exact H|].
  apply (initializePlugin_keeps_existing_controllers ompBuild allFine
           (initializePlugin ompBuild allFine initial).2 H).
Defined.

(** The OpenMP build after its initialisation. *)
Lemma uninitializePlugin_always_succeeds_witness :
  globals_sound ompBuild (initializePlugin ompBuild allFine initial).2
  ∧ (uninitializePlugin ompBuild (initializePlugin ompBuild allFine initial).2).1
    = kSuccess.
Proof.
  assert (H : globals_sound ompBuild (initializePlugin ompBuild allFine initial).2).
  { split.
    - apply (bool_decide_unpack _). vm_compute. exact I.
    - intros k p Hin.
      change (held ompBuild (initializePlugin ompBuild allFine initial).2)
        with [(OsdCpuComputeController, 1); (OsdOmpComputeController, 2)] in Hin.
      apply elem_of_cons in Hin as [[= -> ->]|Hin];
        [eexists; vm_compute; reflexivity|].
      apply list_elem_of_singleton in Hin as [= -> ->].
      eexists; vm_compute; reflexivity. }
  split; [exact H|].
  apply (uninitializePlugin_always_succeeds ompBuild
           (initializePlugin ompBuild allFine initial).2 H).
Defined.

End PluginDetailsExamples.
